(** * banka-be: the ledger service of [server.js]

    A shallow embedding of the request handlers of [server.js] (account
    creation and removal, transaction addition and removal, the built-in
    seed ledger) together with the parts of the JavaScript runtime the
    handlers rely on: truthiness, [typeof], the [+] operator, [parseFloat],
    [isNaN], the conversion of numbers to strings and the MD5 digest of
    Node's [crypto] module.

    Numbers are IEEE 754 binary64 values, as in JavaScript: they are
    modelled by Rocq's primitive floats.  Strings are sequences of bytes
    holding the UTF-8 encoding of the text, which is what the body parser
    decodes and what [hash.update] feeds to the digest. *)

From Stdlib Require Import ZArith Floats Ascii String DecimalString.
From stdpp Require Import gmap strings list fin_maps.

Local Open Scope Z_scope.

(** ** JavaScript numbers *)

Module Num.

(** [round_ratio neg n d] is the Number value of the real [n / d]
    (negated when [neg]): round to nearest, ties to even, overflow to
    an infinity.  The quotient is computed with at least 64 significant
    bits and a sticky bit below them, which rounds like the exact
    value. *)
Definition round_ratio (neg : bool) (n d : Z) : float :=
  if (n <=? 0) || (d <=? 0) then (if neg then (-0)%float else 0%float)
  else
    let k := Z.max 0 (65 + Z.log2 d - Z.log2 n) in
    let q := (n * 2 ^ k) / d in
    let r := (n * 2 ^ k) mod d in
    let m := 2 * q + (if r =? 0 then 0 else 1) in
    SF2Prim (SpecFloat.binary_normalize 53 1024
               (if neg then - m else m) (- k - 1) neg).

(** The Number value of [m * 10 ^ e], for [0 <= m < 10 ^ len].  Powers
    of ten that are certainly beyond the range of the format are not
    computed. *)
Definition of_decimal (neg : bool) (m : Z) (len : Z) (e : Z) : float :=
  if m <=? 0 then (if neg then (-0)%float else 0%float)
  else if 310 <? e then (if neg then neg_infinity else infinity)
  else if e + len <? -330 then (if neg then (-0)%float else 0%float)
  else if 0 <=? e then round_ratio neg (m * 10 ^ e) 1
  else round_ratio neg m (10 ^ (- e)).

Definition of_Z (z : Z) : float :=
  if z <? 0 then round_ratio true (- z) 1 else round_ratio false z 1.

(** A finite positive number as an exact fraction. *)
Definition to_ratio (x : float) : Z * Z :=
  match Prim2SF x with
  | S754_finite _ m e =>
      if 0 <=? e then (Z.pos m * 2 ^ e, 1) else (Z.pos m, 2 ^ (- e))
  | _ => (0, 1)
  end.

(** [decade xn xd] is the integer [n] with
    [10 ^ (n - 1) <= xn / xd < 10 ^ n]. *)
Fixpoint decade_up (fuel : nat) (xn xd : Z) (n : Z) (p : Z) : Z :=
  match fuel with
  | O => n
  | S fuel' =>
      if xn <? p * xd then n else decade_up fuel' xn xd (n + 1) (p * 10)
  end.

Fixpoint decade_down (fuel : nat) (xn xd : Z) (j : Z) (p : Z) : Z :=
  match fuel with
  | O => - j
  | S fuel' =>
      if xn * (p * 10) <? xd then decade_down fuel' xn xd (j + 1) (p * 10)
      else - j
  end.

Definition decade (xn xd : Z) : Z :=
  if xd <=? xn then decade_up 400 xn xd 1 10
  else decade_down 400 xn xd 0 1.

(** [s * 10 ^ e] as a fraction. *)
Definition scaled (s e : Z) : Z * Z :=
  if 0 <=? e then (s * 10 ^ e, 1) else (s, 10 ^ (- e)).

Definition is_value (x : float) (s e : Z) : bool :=
  let '(n, d) := scaled s e in
  PrimFloat.eqb (round_ratio false n d) x.

(** The digits of a finite positive [x] with [k] significant digits, if
    some decimal of that length denotes [x]: the pair [(s, n)] of
    Number::toString, the closest to [x] when there are several, the
    even one on a tie. *)
Definition digits_at (x : float) (n0 k : Z) : option (Z * Z) :=
  let '(xn, xd) := to_ratio x in
  let e := n0 - k in
  let lo := if 0 <=? e then xn / (xd * 10 ^ e) else (xn * 10 ^ (- e)) / xd in
  let hi := lo + 1 in
  let norm (s : Z) := if s =? 10 ^ k then (10 ^ (k - 1), n0 + 1) else (s, n0) in
  (* the sign of 2 x - (lo + hi) * 10 ^ e *)
  let '(mn, md) := scaled (lo + hi) e in
  let side := (2 * xn * md) ?= (mn * xd) in
  match is_value x lo e, is_value x hi e with
  | false, false => None
  | true, false => Some (norm lo)
  | false, true => Some (norm hi)
  | true, true =>
      match side with
      | Lt => Some (norm lo)
      | Gt => Some (norm hi)
      | Eq => if Z.even (fst (norm lo)) then Some (norm lo) else Some (norm hi)
      end
  end.

Fixpoint shortest (fuel : nat) (x : float) (n0 k : Z) : Z * Z :=
  match fuel with
  | O => (fst (to_ratio x) * 10 ^ (k - n0) / snd (to_ratio x), n0)
  | S fuel' =>
      match digits_at x n0 k with
      | Some r => r
      | None => shortest fuel' x n0 (k + 1)
      end
  end.

Definition decimal_of (z : Z) : string :=
  NilZero.string_of_int (Z.to_int z).

Fixpoint zeros (n : nat) : string :=
  match n with
  | O => ""
  | S n' => String "0"%char (zeros n')
  end.

Definition take_str (n : nat) (s : string) : string := String.substring 0 n s.
Definition drop_str (n : nat) (s : string) : string :=
  String.substring n (String.length s - n) s.

(** Number::toString for a finite positive number, radix 10. *)
Definition positive_to_string (x : float) : string :=
  let '(xn, xd) := to_ratio x in
  let n0 := decade xn xd in
  let '(s, n) := shortest 17 x n0 1 in
  let ds := decimal_of s in
  let k := Z.of_nat (String.length ds) in
  if (k <=? n) && (n <=? 21) then
    ds +:+ zeros (Z.to_nat (n - k))
  else if (0 <? n) && (n <=? 21) then
    take_str (Z.to_nat n) ds +:+ "." +:+ drop_str (Z.to_nat n) ds
  else if (-6 <? n) && (n <=? 0) then
    "0." +:+ zeros (Z.to_nat (- n)) +:+ ds
  else
    let e := n - 1 in
    let es := (if e <? 0 then "-" else "+") +:+ decimal_of (Z.abs e) in
    if k =? 1 then ds +:+ "e" +:+ es
    else take_str 1 ds +:+ "." +:+ drop_str 1 ds +:+ "e" +:+ es.

(** Number::toString. *)
Definition to_string (x : float) : string :=
  match Prim2SF x with
  | S754_nan => "NaN"
  | S754_zero _ => "0"
  | S754_infinity false => "Infinity"
  | S754_infinity true => "-Infinity"
  | S754_finite false _ _ => positive_to_string x
  | S754_finite true _ _ => "-" +:+ positive_to_string (PrimFloat.opp x)
  end.

End Num.

(** ** JavaScript values and operators *)

Module JS.

(** The values of the fields of a parsed request body and of the
    accounts.  Only the scalar ones are modelled, not arrays and nested
    objects; [VUndefined] is what reading an absent field gives. *)
Inductive value : Type :=
| VUndefined
| VNull
| VBool (b : bool)
| VNum (x : float)
| VStr (s : string).

(** ToBoolean. *)
Definition truthy (v : value) : bool :=
  match v with
  | VUndefined | VNull => false
  | VBool b => b
  | VNum x => negb (PrimFloat.is_zero x || PrimFloat.is_nan x)
  | VStr s => negb (String.eqb s "")
  end.

(** [typeof v === 'number'] *)
Definition is_number (v : value) : bool :=
  match v with
  | VNum _ => true
  | _ => false
  end.

(** ToString. *)
Definition to_string (v : value) : string :=
  match v with
  | VUndefined => "undefined"
  | VNull => "null"
  | VBool true => "true"
  | VBool false => "false"
  | VNum x => Num.to_string x
  | VStr s => s
  end.

Definition is_string (v : value) : bool :=
  match v with
  | VStr _ => true
  | _ => false
  end.

(** *** Numeric literals in strings *)

Definition byte_of (c : ascii) : Z := Z.of_N (N_of_ascii c).

(** The length in bytes of the white space or line terminator the bytes
    start with, 0 if there is none: TAB, LF, VT, FF, CR, SP, U+00A0,
    U+1680, U+2000 to U+200A, U+2028, U+2029, U+202F, U+205F, U+3000
    and U+FEFF. *)
Definition white_space (s : string) : nat :=
  match map byte_of (list_ascii_of_string (String.substring 0 3 s)) with
  | 9 :: _ | 10 :: _ | 11 :: _ | 12 :: _ | 13 :: _ | 32 :: _ => 1%nat
  | 194 :: 160 :: _ => 2%nat
  | 225 :: 154 :: 128 :: _ => 3%nat
  | 226 :: 128 :: c :: _ =>
      if ((128 <=? c) && (c <=? 138)) || (c =? 168) || (c =? 169) || (c =? 175)
      then 3%nat else 0%nat
  | 226 :: 129 :: 159 :: _ => 3%nat
  | 227 :: 128 :: 128 :: _ => 3%nat
  | 239 :: 187 :: 191 :: _ => 3%nat
  | _ => 0%nat
  end.

Fixpoint trim_start (fuel : nat) (s : string) : string :=
  match fuel with
  | O => s
  | S fuel' =>
      match white_space s with
      | O => s
      | n => trim_start fuel' (Num.drop_str n s)
      end
  end.

Definition is_digit (c : ascii) : bool :=
  (48 <=? byte_of c) && (byte_of c <=? 57).

(** The decimal digits a string starts with, and what follows them. *)
Fixpoint digits (s : string) : string * string :=
  match s with
  | String c s' =>
      if is_digit c then let '(d, r) := digits s' in (String c d, r)
      else ("", s)
  | EmptyString => ("", "")
  end.

Fixpoint digits_value (acc : Z) (s : string) : Z :=
  match s with
  | String c s' => digits_value (10 * acc + (byte_of c - 48)) s'
  | EmptyString => acc
  end.

(** The value of the ExponentPart a string starts with and what follows
    it; 0 and the string itself if it starts with none. *)
Definition exponent (s : string) : Z * string :=
  match s with
  | String c s' =>
      if (byte_of c =? 101) || (byte_of c =? 69) then
        let '(neg, s'') :=
          match s' with
          | String sg t =>
              if byte_of sg =? 43 then (false, t)
              else if byte_of sg =? 45 then (true, t)
              else (false, s')
          | EmptyString => (false, s')
          end in
        let '(d, r) := digits s'' in
        if String.eqb d "" then (0, s)
        else (if neg then - digits_value 0 d else digits_value 0 d, r)
      else (0, s)
  | EmptyString => (0, s)
  end.

(** The value of the longest prefix that is a StrUnsignedDecimalLiteral
    and what follows it, if there is such a prefix. *)
Definition unsigned_literal (neg : bool) (s : string) : option (float * string) :=
  if String.prefix "Infinity" s
  then Some (if neg then neg_infinity else infinity, Num.drop_str 8 s)
  else
    let '(int, r) := digits s in
    let '(frac, r') :=
      match r with
      | String c r1 => if byte_of c =? 46 then digits r1 else ("", r)
      | EmptyString => ("", r)
      end in
    if String.eqb int "" && String.eqb frac "" then None
    else
      let '(e, rest) := exponent r' in
      let m := digits_value 0 (int +:+ frac) in
      let len := Z.of_nat (String.length (int +:+ frac)) in
      Some (Num.of_decimal neg m len (e - Z.of_nat (String.length frac)), rest).

(** The same for a StrDecimalLiteral, which may start with a sign. *)
Definition decimal_literal (s : string) : option (float * string) :=
  match s with
  | String c s' =>
      if byte_of c =? 43 then unsigned_literal false s'
      else if byte_of c =? 45 then unsigned_literal true s'
      else unsigned_literal false s
  | EmptyString => None
  end.

(** [parseFloat] on a string: leading white space is skipped, what
    follows the literal is ignored. *)
Definition parse_float_string (s : string) : float :=
  match decimal_literal (trim_start (String.length s) s) with
  | Some (x, _) => x
  | None => nan
  end.

(** The value of a digit in a radix up to 16. *)
Definition digit_in (radix : Z) (c : ascii) : option Z :=
  let b := byte_of c in
  let v := if (48 <=? b) && (b <=? 57) then b - 48
           else if (97 <=? b) && (b <=? 102) then b - 87
           else if (65 <=? b) && (b <=? 70) then b - 55
           else 16 in
  if v <? radix then Some v else None.

Fixpoint radix_digits (radix : Z) (acc : Z) (s : string) : Z * string :=
  match s with
  | String c s' =>
      match digit_in radix c with
      | Some v => radix_digits radix (radix * acc + v) s'
      | None => (acc, s)
      end
  | EmptyString => (acc, s)
  end.

(** The value of the NonDecimalIntegerLiteral a string starts with and
    what follows it. *)
Definition non_decimal_literal (s : string) : option (float * string) :=
  match s with
  | String z (String x s') =>
      let b := byte_of x in
      let radix := if (b =? 120) || (b =? 88) then 16
                   else if (b =? 111) || (b =? 79) then 8
                   else if (b =? 98) || (b =? 66) then 2
                   else 0 in
      if (byte_of z =? 48) && (0 <? radix) then
        let '(v, r) := radix_digits radix 0 s' in
        if String.eqb r s' then None else Some (Num.of_Z v, r)
      else None
  | _ => None
  end.

(** StringToNumber: white space around the literal is skipped, the
    empty string is 0, anything but a numeric literal is NaN. *)
Definition string_to_number (s : string) : float :=
  let t := trim_start (String.length s) s in
  let blank (r : string) := String.eqb (trim_start (String.length r) r) "" in
  if String.eqb t "" then 0%float
  else
    match non_decimal_literal t with
    | Some (x, r) => if blank r then x else nan
    | None =>
        match decimal_literal t with
        | Some (x, r) => if blank r then x else nan
        | None => nan
        end
    end.

(** ToNumber. *)
Definition to_number (v : value) : float :=
  match v with
  | VUndefined => nan
  | VNull => 0%float
  | VBool true => 1%float
  | VBool false => 0%float
  | VNum x => x
  | VStr s => string_to_number s
  end.

(** The [+] operator: concatenation as soon as one operand is a string,
    addition of numbers otherwise. *)
Definition add (a b : value) : value :=
  if is_string a || is_string b
  then VStr (to_string a +:+ to_string b)
  else VNum (PrimFloat.add (to_number a) (to_number b)).

(** [a || b] *)
Definition or (a b : value) : value := if truthy a then a else b.

(** [parseFloat(v)]: the argument is converted to a string first. *)
Definition parseFloat (v : value) : float := parse_float_string (to_string v).

(** [isNaN(v)]: the argument is converted to a number first. *)
Definition isNaN (v : value) : bool := PrimFloat.is_nan (to_number v).

(** [Number.isNaN(v)]: the value is the number NaN. *)
Definition Number_isNaN (v : value) : bool :=
  match v with
  | VNum x => PrimFloat.is_nan x
  | _ => false
  end.

(** [a === b]: numbers are compared as numbers, so that NaN differs from
    itself and 0 equals -0. *)
Definition strict_equal (a b : value) : bool :=
  match a, b with
  | VUndefined, VUndefined => true
  | VNull, VNull => true
  | VBool x, VBool y => Bool.eqb x y
  | VNum x, VNum y => PrimFloat.eqb x y
  | VStr s, VStr t => String.eqb s t
  | _, _ => false
  end.

End JS.

(** ** The MD5 digest, [crypto.createHash('md5')] *)

Module MD5.

Definition mask : Z := 0xffffffff.
Definition add32 (a b : Z) : Z := Z.land (a + b) mask.
Definition not32 (a : Z) : Z := Z.lxor a mask.
Definition rotl32 (x c : Z) : Z :=
  Z.land (Z.lor (Z.shiftl x c) (Z.shiftr x (32 - c))) mask.

Definition shifts : list Z :=
  [7; 12; 17; 22; 7; 12; 17; 22; 7; 12; 17; 22; 7; 12; 17; 22;
   5; 9; 14; 20; 5; 9; 14; 20; 5; 9; 14; 20; 5; 9; 14; 20;
   4; 11; 16; 23; 4; 11; 16; 23; 4; 11; 16; 23; 4; 11; 16; 23;
   6; 10; 15; 21; 6; 10; 15; 21; 6; 10; 15; 21; 6; 10; 15; 21].

Definition sines : list Z :=
  [0xd76aa478; 0xe8c7b756; 0x242070db; 0xc1bdceee;
   0xf57c0faf; 0x4787c62a; 0xa8304613; 0xfd469501;
   0x698098d8; 0x8b44f7af; 0xffff5bb1; 0x895cd7be;
   0x6b901122; 0xfd987193; 0xa679438e; 0x49b40821;
   0xf61e2562; 0xc040b340; 0x265e5a51; 0xe9b6c7aa;
   0xd62f105d; 0x02441453; 0xd8a1e681; 0xe7d3fbc8;
   0x21e1cde6; 0xc33707d6; 0xf4d50d87; 0x455a14ed;
   0xa9e3e905; 0xfcefa3f8; 0x676f02d9; 0x8d2a4c8a;
   0xfffa3942; 0x8771f681; 0x6d9d6122; 0xfde5380c;
   0xa4beea44; 0x4bdecfa9; 0xf6bb4b60; 0xbebfbc70;
   0x289b7ec6; 0xeaa127fa; 0xd4ef3085; 0x04881d05;
   0xd9d4d039; 0xe6db99e5; 0x1fa27cf8; 0xc4ac5665;
   0xf4292244; 0x432aff97; 0xab9423a7; 0xfc93a039;
   0x655b59c3; 0x8f0ccc92; 0xffeff47d; 0x85845dd1;
   0x6fa87e4f; 0xfe2ce6e0; 0xa3014314; 0x4e0811a1;
   0xf7537e82; 0xbd3af235; 0x2ad7d2bb; 0xeb86d391].

(** The message followed by the bit 1, zeros up to 56 bytes modulo 64
    and the length in bits as 8 bytes, least significant first. *)
Definition le_bytes (n : nat) (x : Z) : list Z :=
  map (fun i => Z.land (Z.shiftr x (8 * Z.of_nat i)) 0xff) (seq 0 n).

Definition pad (msg : list Z) : list Z :=
  let len := Z.of_nat (length msg) in
  let fill := (55 - len) mod 64 in
  msg ++ [0x80] ++ repeat 0 (Z.to_nat fill) ++ le_bytes 8 ((8 * len) mod 2 ^ 64).

Fixpoint words (n : nat) (bytes : list Z) : list Z :=
  match n with
  | O => []
  | S n' =>
      match bytes with
      | b0 :: b1 :: b2 :: b3 :: rest =>
          (b0 + Z.shiftl b1 8 + Z.shiftl b2 16 + Z.shiftl b3 24) :: words n' rest
      | _ => []
      end
  end.

Record state := State { sa : Z; sb : Z; sc : Z; sd : Z }.

Definition init : state :=
  State 0x67452301 0xefcdab89 0x98badcfe 0x10325476.

Definition round (m : list Z) (st : state) (i : nat) : state :=
  let '(State a b c d) := st in
  let zi := Z.of_nat i in
  let '(f, g) :=
    if zi <? 16 then (Z.lor (Z.land b c) (Z.land (not32 b) d), zi)
    else if zi <? 32 then
      (Z.lor (Z.land d b) (Z.land (not32 d) c), (5 * zi + 1) mod 16)
    else if zi <? 48 then (Z.lxor (Z.lxor b c) d, (3 * zi + 5) mod 16)
    else (Z.lxor c (Z.lor b (not32 d)), (7 * zi) mod 16) in
  let f' := add32 (add32 (add32 f a) (nth i sines 0)) (nth (Z.to_nat g) m 0) in
  State d (add32 b (rotl32 f' (nth i shifts 0))) b c.

Definition block (st : state) (m : list Z) : state :=
  let '(State a b c d) := fold_left (round m) (seq 0 64) st in
  State (add32 (sa st) a) (add32 (sb st) b) (add32 (sc st) c) (add32 (sd st) d).

Fixpoint blocks (n : nat) (st : state) (bytes : list Z) : state :=
  match n with
  | O => st
  | S n' => blocks n' (block st (words 16 (take 64 bytes))) (drop 64 bytes)
  end.

Definition digest (msg : list Z) : list Z :=
  let p := pad msg in
  let '(State a b c d) := blocks (length p / 64) init p in
  le_bytes 4 a ++ le_bytes 4 b ++ le_bytes 4 c ++ le_bytes 4 d.

Definition hex_digit (n : Z) : ascii :=
  ascii_of_N (Z.to_N (if n <? 10 then 48 + n else 87 + n)).

Fixpoint hex (bytes : list Z) : string :=
  match bytes with
  | [] => ""
  | b :: rest => String (hex_digit (b / 16)) (String (hex_digit (b mod 16)) (hex rest))
  end.

(** [crypto.createHash('md5').update(s).digest('hex')] *)
Definition md5_hex (s : string) : string :=
  hex (digest (map JS.byte_of (list_ascii_of_string s))).

End MD5.

(** ** The ledger and the request handlers

    [db] is the object that maps each user to an account; its accounts
    and transactions have the fields of the default data.  A handler is a
    function from [db] and the parameters and body of the request to the
    response and the [db] it leaves.  [saveDB()] writes [db] to [db.json]
    and leaves [db] as it is, so it does not appear: the handlers are
    those of a server whose writes to [db.json] succeed.  (When
    [fs.writeFileSync] throws, Express answers 500 after [db] was changed;
    no response of the handlers below stands for that.) *)

Module Server.
Import JS.

Record Transaction := {
  id : string;
  date : value;
  object : value;
  amount : value
}.

Record Account := {
  user : value;
  currency : value;
  description : value;
  balance : value;
  transactions : list Transaction
}.

(** [db]: the accounts by user. *)
Abbreviation ledger := (gmap string Account).

(** A request body: the fields by name, [undefined] for a field the
    request does not have. *)
Abbreviation body := (gmap string value).

#[export] Instance value_inhabited : Inhabited value := populate VUndefined.

(** The default data, used when there is no [db.json] or it cannot be
    parsed. *)
Definition test_account : Account :=
  {| user := VStr "test";
     currency := VStr "$";
     description := VStr "Test account";
     balance := VNum 75;
     transactions :=
       [ {| id := "1"; date := VStr "2020-10-01";
            object := VStr "Pocket money"; amount := VNum 50 |};
         {| id := "2"; date := VStr "2020-10-03";
            object := VStr "Book"; amount := VNum (-10) |};
         {| id := "3"; date := VStr "2020-10-04";
            object := VStr "Sandwich"; amount := VNum (-5) |} ] |}.

Definition default_db : ledger := {[ "test" := test_account ]}.

(** What is found at [DB_FILE] when the server starts. *)
Inductive db_file : Type :=
| NoFile
| Unparsable
| Document (content : ledger).

(** The value of [db] once the module is loaded. *)
Definition load (file : db_file) : ledger :=
  match file with
  | Document content => content
  | Unparsable => default_db
  | NoFile => default_db
  end.

(** [db] is a plain object: besides the accounts, reading [db[key]]
    finds the members of [Object.prototype]. *)
Definition object_prototype : list string :=
  [ "constructor"; "__defineGetter__"; "__defineSetter__"; "hasOwnProperty";
    "__lookupGetter__"; "__lookupSetter__"; "isPrototypeOf";
    "propertyIsEnumerable"; "toString"; "valueOf"; "__proto__";
    "toLocaleString" ].

Inductive property : Type :=
| Own (account : Account)
| Inherited
| Missing.

(** [db[key]] *)
Definition get (db : ledger) (key : string) : property :=
  match db !! key with
  | Some account => Own account
  | None =>
      if existsb (String.eqb key) object_prototype then Inherited else Missing
  end.

(** What a handler answers. *)
Inductive payload : Type :=
| error (message : string)
| of_account (account : Account)
| of_transaction (transaction : Transaction)
| of_prototype (key : string).

Inductive response : Type :=
| json (status : Z) (content : payload)
| sendStatus (status : Z)
| TypeError.

(** [list.findIndex(f)] *)
Fixpoint findIndex {A : Type} (f : A -> bool) (l : list A) : Z :=
  match l with
  | [] => -1
  | x :: l' =>
      if f x then 0
      else let i := findIndex f l' in if i =? -1 then -1 else i + 1
  end.

(** [list.splice(start, 1)] for a [start] that is not negative. *)
Definition splice1 {A : Type} (start : Z) (l : list A) : list A :=
  delete (Z.to_nat start) l.

(** [account.transactions.push(transaction)] *)
Definition push (account : Account) (transaction : Transaction) : Account :=
  {| user := user account;
     currency := currency account;
     description := description account;
     balance := balance account;
     transactions := transactions account ++ [transaction] |}.

(** [account.balance += v] *)
Definition add_balance (account : Account) (v : value) : Account :=
  {| user := user account;
     currency := currency account;
     description := description account;
     balance := add (balance account) v;
     transactions := transactions account |}.

(** [account.transactions.splice(start, 1)] *)
Definition splice (account : Account) (start : Z) : Account :=
  {| user := user account;
     currency := currency account;
     description := description account;
     balance := balance account;
     transactions := splice1 start (transactions account) |}.

(** [router.post('/accounts')] *)
Definition post_accounts (db : ledger) (req : body) : response * ledger :=
  if negb (truthy (req !!! "user")) || negb (truthy (req !!! "currency")) then
    (json 400 (error "Missing parameters"), db)
  else
    match get db (to_string (req !!! "user")) with
    | Own _ | Inherited => (json 409 (error "User already exists"), db)
    | Missing =>
        let balance0 := req !!! "balance" in
        let convert := truthy balance0 && negb (is_number balance0) in
        let balance1 := if convert then VNum (parseFloat balance0) else balance0 in
        if convert && isNaN balance1 then
          (json 400 (error "Balance must be a number"), db)
        else
          let account :=
            {| user := req !!! "user";
               currency := req !!! "currency";
               description :=
                 or (req !!! "description")
                    (VStr (to_string (req !!! "user") +:+ "'s budget"));
               balance := or balance1 (VNum 0);
               transactions := [] |} in
          (json 201 (of_account account),
           <[to_string (req !!! "user") := account]> db)
    end.

(** [router.get('/accounts/:user')] *)
Definition get_account (db : ledger) (user : string) : response * ledger :=
  match get db user with
  | Missing => (json 404 (error "Username or password does not exist"), db)
  | Own account => (json 200 (of_account account), db)
  | Inherited => (json 200 (of_prototype user), db)
  end.

(** [router.delete('/accounts/:user')] *)
Definition delete_account (db : ledger) (user : string) : response * ledger :=
  match get db user with
  | Missing => (json 404 (error "User does not exist"), db)
  | Own _ | Inherited => (sendStatus 204, delete user db)
  end.

(** The amount after "Convert amount to number if needed". *)
Definition converted (amount0 : value) : value :=
  if truthy amount0 && negb (is_number amount0)
  then VNum (parseFloat amount0) else amount0.

(** [crypto.createHash('md5').update(data).digest('hex')]: [update]
    takes a string and throws a TypeError on a number. *)
Definition md5 (data : value) : option string :=
  match data with
  | VStr s => Some (MD5.md5_hex s)
  | _ => None
  end.

(** "Generate an ID for the transaction" *)
Definition generate_id (req : body) : option string :=
  md5 (add (add (req !!! "date") (req !!! "object")) (req !!! "amount")).

(** [router.post('/accounts/:user/transactions')] *)
Definition post_transactions (db : ledger) (user : string) (req : body)
  : response * ledger :=
  match get db user with
  | Missing => (json 404 (error "User does not exist"), db)
  | found =>
      if negb (truthy (req !!! "date")) || negb (truthy (req !!! "object"))
         || negb (truthy (req !!! "amount")) then
        (json 400 (error "Missing parameters"), db)
      else
        let amount1 := converted (req !!! "amount") in
        if truthy amount1 && isNaN amount1 then
          (json 400 (error "Amount must be a number"), db)
        else
          match generate_id req, found with
          | Some id1, Own account =>
              if existsb (fun transaction => String.eqb (id transaction) id1)
                   (transactions account)
              then (json 409 (error "Transaction already exists"), db)
              else
                let transaction :=
                  {| id := id1;
                     date := req !!! "date";
                     object := req !!! "object";
                     amount := amount1 |} in
                let account' :=
                  add_balance (push account transaction) (amount transaction) in
                (json 201 (of_transaction transaction), <[user := account']> db)
          | _, _ => (TypeError, db)
          end
  end.

(** [router.delete('/accounts/:user/transactions/:id')] *)
Definition delete_transaction (db : ledger) (user : string) (id0 : string)
  : response * ledger :=
  match get db user with
  | Missing => (json 404 (error "User does not exist"), db)
  | Inherited => (TypeError, db)
  | Own account =>
      let transactionIndex :=
        findIndex (fun transaction => String.eqb (id transaction) id0)
          (transactions account) in
      if transactionIndex =? -1 then
        (json 404 (error "Transaction does not exist"), db)
      else
        let account' := splice account transactionIndex in
        (sendStatus 204, <[user := account']> db)
  end.

(** The status code of a response; Express answers 500 when a handler
    throws. *)
Definition status (r : response) : Z :=
  match r with
  | json code _ => code
  | sendStatus code => code
  | TypeError => 500
  end.

(** The response is [{ error: message }] with this status code. *)
Definition is_error (r : response) (code : Z) (message : string) : bool :=
  match r with
  | json c (error m) => (c =? code) && String.eqb m message
  | _ => false
  end.

(** The sum of [amount] over the transactions, as
    [transactions.reduce((sum, t) => sum + t.amount, 0)]. *)
Definition sum_amounts (l : list Transaction) : value :=
  fold_left (fun sum transaction => add sum (amount transaction)) l (VNum 0).

(** The balance of an account is the sum of its transactions:
    [account.balance === sum]. *)
Definition consistent (account : Account) : Prop :=
  strict_equal (balance account) (sum_amounts (transactions account)) = true.

Definition has_id (id0 : string) (transaction : Transaction) : bool :=
  String.eqb (id transaction) id0.

(** "Within an account, transaction id is unique." *)
Definition unique_ids (account : Account) : Prop :=
  NoDup (map id (transactions account)).

(** How many of the transactions have this id. *)
Definition count_id (id0 : string) (l : list Transaction) : nat :=
  length (List.filter (has_id id0) l).

(** A property of every account of the ledger. *)
Definition all_accounts (P : Account -> Prop) (db : ledger) : Prop :=
  forall key account, db !! key = Some account -> P account.

End Server.

(** ** Properties of the handlers *)

Import JS Server.

(** The request bodies used in the examples. *)
Definition gift : body :=
  {[ "date" := VStr "2021-01-01"; "object" := VStr "Gift"; "amount" := VNum 20 ]}.

Definition coffee : body :=
  {[ "date" := VStr "2020-10-05"; "object" := VStr "Coffee"; "amount" := VStr "abc" ]}.

Definition alice : body :=
  {[ "user" := VStr "alice"; "currency" := VStr "$" ]}.

Definition bob : body :=
  {[ "user" := VStr "bob"; "currency" := VStr "$"; "balance" := VNum 100 ]}.

Definition test_again : body :=
  {[ "user" := VStr "test"; "currency" := VStr "EUR"; "balance" := VStr "x" ]}.

(** The transaction a request gives rise to, once its id is generated. *)
Definition new_transaction (req : body) (id1 : string) : Transaction :=
  {| id := id1;
     date := req !!! "date";
     object := req !!! "object";
     amount := converted (req !!! "amount") |}.

(** What [post_transactions] answers and the ledger it leaves, case by
    case, in the order of the checks of the handler. *)
Inductive post_transactions_answer (db : ledger) (name : string) (req : body)
  : response * ledger -> Prop :=
| no_user :
    get db name = Missing ->
    post_transactions_answer db name req
      (json 404 (error "User does not exist"), db)
| no_parameters :
    get db name <> Missing ->
    negb (truthy (req !!! "date")) || negb (truthy (req !!! "object"))
    || negb (truthy (req !!! "amount")) = true ->
    post_transactions_answer db name req
      (json 400 (error "Missing parameters"), db)
| throws :
    get db name <> Missing ->
    truthy (req !!! "date") = true ->
    truthy (req !!! "object") = true ->
    truthy (req !!! "amount") = true ->
    generate_id req = None \/ get db name = Inherited ->
    post_transactions_answer db name req (TypeError, db)
| exists_already (account : Account) (id1 : string) :
    db !! name = Some account ->
    truthy (req !!! "date") = true ->
    truthy (req !!! "object") = true ->
    truthy (req !!! "amount") = true ->
    generate_id req = Some id1 ->
    existsb (has_id id1) (transactions account) = true ->
    post_transactions_answer db name req
      (json 409 (error "Transaction already exists"), db)
| created (account : Account) (id1 : string) :
    db !! name = Some account ->
    truthy (req !!! "date") = true ->
    truthy (req !!! "object") = true ->
    truthy (req !!! "amount") = true ->
    generate_id req = Some id1 ->
    existsb (has_id id1) (transactions account) = false ->
    post_transactions_answer db name req
      (json 201 (of_transaction (new_transaction req id1)),
       <[name := add_balance (push account (new_transaction req id1))
                   (amount (new_transaction req id1))]> db).

(** The requests the router passes to the handlers of the ledger, with
    the parameters of the route and the body. *)
Inductive request : Type :=
| PostAccounts (req : body)
| GetAccount (name : string)
| DeleteAccount (name : string)
| PostTransactions (name : string) (req : body)
| DeleteTransaction (name id0 : string).

(** The router: each request goes to the handler of its route. *)
Definition handle (db : ledger) (q : request) : response * ledger :=
  match q with
  | PostAccounts req => post_accounts db req
  | GetAccount name => get_account db name
  | DeleteAccount name => delete_account db name
  | PostTransactions name req => post_transactions db name req
  | DeleteTransaction name id0 => delete_transaction db name id0
  end.

(** [db] after a sequence of requests, handled one after the other. *)
Definition run (db : ledger) (qs : list request) : ledger :=
  fold_left (fun db' q => (handle db' q).2) qs db.

(** The key of [db] a request is about. *)
Definition target (q : request) : string :=
  match q with
  | PostAccounts req => to_string (req !!! "user")
  | GetAccount name => name
  | DeleteAccount name => name
  | PostTransactions name _ => name
  | DeleteTransaction name _ => name
  end.

(** The balance and the amounts of an account are numbers. *)
Definition numeric (account : Account) : Prop :=
  is_number (balance account) = true /\
  Forall (fun t => is_number (amount t) = true) (transactions account).

(** More request bodies for the examples. *)
Definition carol : body :=
  {[ "user" := VStr "carol"; "currency" := VStr "EUR"; "balance" := VStr "abc" ]}.

Definition free_string : body :=
  {[ "date" := VStr "2021-02-01"; "object" := VStr "Sample"; "amount" := VStr "0" ]}.

Definition free_number : body :=
  {[ "date" := VStr "2021-02-01"; "object" := VStr "Sample"; "amount" := VNum 0 ]}.

(** *** The runtime on known values *)

(** The test suite of RFC 1321. *)
Example md5_rfc1321 :
  MD5.md5_hex "" = "d41d8cd98f00b204e9800998ecf8427e" /\
  MD5.md5_hex "a" = "0cc175b9c0f1b6a831c399e269772661" /\
  MD5.md5_hex "abc" = "900150983cd24fb0d6963f7d28e17f72" /\
  MD5.md5_hex "message digest" = "f96b697d7cb7938d525a2f31aaf161d0" /\
  MD5.md5_hex "abcdefghijklmnopqrstuvwxyz" = "c3fcd3d76192e4007dfb496cca67e13b" /\
  MD5.md5_hex "ABCDEFGHIJKLMNOPQRSTUVWXYZabcdefghijklmnopqrstuvwxyz0123456789"
    = "d174ab98d277d9f5a5611c2c9f419d9f" /\
  MD5.md5_hex
    "12345678901234567890123456789012345678901234567890123456789012345678901234567890"
    = "57edf4a22be3c955ac49da2e2107b67a".
Proof. repeat apply conj; vm_compute; reflexivity. Qed.

Example parseFloat_values :
  parseFloat (VStr "20") = 20%float /\
  parseFloat (VStr "  12.50 euros") = 12.5%float /\
  parseFloat (VStr "-.5e1") = (-5)%float /\
  parseFloat (VStr "1e") = 1%float /\
  parseFloat (VStr "-0") = (-0)%float /\
  parseFloat (VStr "0x10") = 0%float /\
  parseFloat (VStr "1e999") = infinity /\
  parseFloat (VStr "-Infinity") = neg_infinity /\
  parseFloat (VStr "abc") = nan /\
  parseFloat (VStr ".") = nan /\
  parseFloat (VStr "") = nan /\
  parseFloat (VBool true) = nan.
Proof. repeat apply conj; vm_compute; reflexivity. Qed.

Example number_to_string_values :
  to_string (VNum 20) = "20" /\
  to_string (VNum (-5)) = "-5" /\
  to_string (VNum 12.5) = "12.5" /\
  to_string (VNum (parseFloat (VStr "0.1"))) = "0.1" /\
  to_string (VNum (PrimFloat.add (parseFloat (VStr "0.1")) (parseFloat (VStr "0.2"))))
    = "0.30000000000000004" /\
  to_string (VNum (parseFloat (VStr "0.000001"))) = "0.000001" /\
  to_string (VNum (parseFloat (VStr "0.0000001"))) = "1e-7" /\
  to_string (VNum (parseFloat (VStr "123456789012345680000")))
    = "123456789012345680000" /\
  to_string (VNum (parseFloat (VStr "1000000000000000000000"))) = "1e+21" /\
  to_string (VNum (parseFloat (VStr "5e-324"))) = "5e-324" /\
  to_string (VNum (parseFloat (VStr "1.7976931348623157e308")))
    = "1.7976931348623157e+308" /\
  to_string (VNum nan) = "NaN" /\
  to_string (VNum (-0)) = "0" /\
  to_string (VNum infinity) = "Infinity".
Proof. repeat apply conj; vm_compute; reflexivity. Qed.

Example add_values :
  add (add (VStr "2021-01-01") (VStr "Gift")) (VNum 20) = VStr "2021-01-01Gift20" /\
  add (add (VNum 1) (VNum 2)) (VStr "x") = VStr "3x" /\
  add (add (VNum 1) (VNum 2)) (VNum 3) = VNum 6 /\
  add (VNum 75) (VNum nan) = VNum nan /\
  add VNull (VStr "a") = VStr "nulla" /\
  add (VBool true) (VNum 1) = VNum 2.
Proof. repeat apply conj; vm_compute; reflexivity. Qed.

(** The scenario of the service: an account is created, a transaction
    is added, added again and removed. *)
Example scenario :
  let (r0, db0) := post_accounts ∅ alice in
  let (r1, db1) := post_transactions db0 "alice" gift in
  let (r2, db2) := post_transactions db1 "alice" gift in
  let (r3, db3) :=
    delete_transaction db2 "alice" "1fd9ab84cdf17f9e1b7527b0a7865c30" in
  (status r0, balance <$> db0 !! "alice") = (201, Some (VNum 0)) /\
  (status r1, balance <$> db1 !! "alice") = (201, Some (VNum 20)) /\
  (status r2, balance <$> db2 !! "alice") = (409, Some (VNum 20)) /\
  (status r3, balance <$> db3 !! "alice") = (204, Some (VNum 20)) /\
  transactions <$> db3 !! "alice" = Some [].
Proof. vm_compute. repeat apply conj; reflexivity. Qed.

(** A request whose date, object and amount are all numbers makes the
    handler throw: [hash.update] is given their sum. *)
Example numbers_only :
  post_transactions default_db "test"
    {[ "date" := VNum 1; "object" := VNum 2; "amount" := VNum 3 ]}
  = (TypeError, default_db).
Proof. vm_compute. reflexivity. Qed.

(** *** Looking up accounts and transactions *)

Lemma get_own (db : ledger) (key : string) (account : Account) :
  db !! key = Some account -> get db key = Own account.
Proof. intros H. unfold get. now rewrite H. Qed.

Lemma get_own_inv (db : ledger) (key : string) (account : Account) :
  get db key = Own account -> db !! key = Some account.
Proof.
  unfold get. destruct (db !! key); [congruence|].
  destruct (existsb _ _); discriminate.
Qed.

Lemma findIndex_none {A : Type} (f : A -> bool) (l : list A) :
  existsb f l = false -> findIndex f l = -1.
Proof.
  induction l as [|x l IH]; simpl; [reflexivity|].
  destruct (f x); simpl; [discriminate|].
  intros H. rewrite (IH H). reflexivity.
Qed.

(** [findIndex] stops at the first element that satisfies the test. *)
Lemma findIndex_first {A : Type} (f : A -> bool) (l : list A) :
  existsb f l = true ->
  exists before x after,
    l = before ++ x :: after /\ f x = true /\ existsb f before = false /\
    findIndex f l = Z.of_nat (length before).
Proof.
  induction l as [|y l IH]; simpl; [discriminate|].
  destruct (f y) eqn:Hy; simpl.
  - intros _. exists [], y, l. repeat split; assumption || reflexivity.
  - intros H. destruct (IH H) as (before & x & after & -> & Hx & Hb & Hi).
    exists (y :: before), x, after. simpl. rewrite Hy, Hb, Hi.
    repeat split; try assumption.
    destruct (Z.eqb_spec (Z.of_nat (length before)) (-1)); lia.
Qed.

Lemma splice1_middle {A : Type} (before after : list A) (x : A) :
  splice1 (Z.of_nat (length before)) (before ++ x :: after) = before ++ after.
Proof.
  unfold splice1. rewrite Nat2Z.id.
  induction before as [|y before IH]; simpl; [reflexivity|].
  now rewrite IH.
Qed.

Lemma sum_amounts_push (l : list Transaction) (t : Transaction) :
  sum_amounts (l ++ [t]) = add (sum_amounts l) (amount t).
Proof. unfold sum_amounts. now rewrite fold_left_app. Qed.

Lemma count_id_app (id0 : string) (l1 l2 : list Transaction) :
  count_id id0 (l1 ++ l2) = (count_id id0 l1 + count_id id0 l2)%nat.
Proof. unfold count_id. now rewrite List.filter_app, length_app. Qed.

Lemma count_id_none (id0 : string) (l : list Transaction) :
  existsb (has_id id0) l = false -> count_id id0 l = 0%nat.
Proof.
  unfold count_id. induction l as [|t l IH]; simpl; [reflexivity|].
  destruct (has_id id0 t); simpl; [discriminate|]. exact IH.
Qed.

Lemma count_id_some (id0 : string) (l : list Transaction) :
  existsb (has_id id0) l = true -> (1 <= count_id id0 l)%nat.
Proof.
  unfold count_id. induction l as [|t l IH]; simpl; [discriminate|].
  destruct (has_id id0 t); simpl; [lia|]. exact IH.
Qed.

Lemma has_id_absent (id0 : string) (l : list Transaction) :
  existsb (has_id id0) l = false <-> id0 ∉ map id l.
Proof.
  induction l as [|t l IH]; simpl.
  - split; [intros _; apply not_elem_of_nil|reflexivity].
  - rewrite not_elem_of_cons. unfold has_id at 1.
    destruct (String.eqb_spec (id t) id0) as [He|Hne]; simpl.
    + split; [discriminate|]. intros [H _]. now contradiction H.
    + rewrite IH. split; [intros H; split; [congruence|exact H]|tauto].
Qed.

Lemma unique_ids_count (id0 : string) (l : list Transaction) :
  NoDup (map id l) -> (count_id id0 l <= 1)%nat.
Proof.
  induction l as [|t l IH]; simpl; intros H; [unfold count_id; simpl; lia|].
  apply NoDup_cons in H as [Hnot Hrest].
  change (t :: l) with ([t] ++ l). rewrite count_id_app.
  specialize (IH Hrest). unfold count_id at 1. simpl.
  unfold has_id at 1. destruct (String.eqb_spec (id t) id0) as [He|Hne]; simpl; [|lia].
  subst id0. apply has_id_absent in Hnot. rewrite (count_id_none _ _ Hnot). lia.
Qed.

(** *** The amount of a transaction *)

(** "Check that amount is a valid number": the test
    [amount && isNaN(amount)] fails on every value, because NaN is not
    truthy. *)
Lemma amount_check_never_holds (v : value) :
  truthy (converted v) && isNaN (converted v) = false.
Proof.
  unfold converted.
  destruct (truthy v && negb (is_number v)) eqn:Hc.
  - unfold isNaN. simpl.
    destruct (PrimFloat.is_nan (parseFloat v)); [apply andb_false_iff; left|];
      now rewrite ?orb_true_r, ?andb_false_r.
  - destruct v as [| |b|x|s]; simpl in *; try reflexivity.
    + now destruct b.
    + unfold isNaN. simpl.
      destruct (PrimFloat.is_nan x); now rewrite ?orb_true_r, ?andb_false_r.
    + rewrite andb_true_r in Hc. now rewrite Hc.
Qed.

(** The converted amount of a request that passed the check of the
    mandatory parameters is a number. *)
Lemma converted_number (v : value) :
  truthy v = true -> exists x, converted v = VNum x.
Proof.
  intros Hv. unfold converted. rewrite Hv. simpl.
  destruct (is_number v) eqn:Hn; simpl; [|eauto].
  destruct v; try discriminate. eauto.
Qed.

(** *** The answers to a request to add a transaction *)

Section ValidRequest.

Variables (db : ledger) (name : string) (req : body).
Variables (account : Account) (id1 : string).
Hypothesis Haccount : db !! name = Some account.
Hypothesis Hdate : truthy (req !!! "date") = true.
Hypothesis Hobject : truthy (req !!! "object") = true.
Hypothesis Hamount : truthy (req !!! "amount") = true.
Hypothesis Hid : generate_id req = Some id1.

(** A request whose id is new to the account is stored. *)
Lemma post_transactions_created :
  existsb (has_id id1) (transactions account) = false ->
  post_transactions db name req =
    (json 201 (of_transaction (new_transaction req id1)),
     <[name := add_balance (push account (new_transaction req id1))
                 (amount (new_transaction req id1))]> db).
Proof.
  intros Hnew. unfold post_transactions.
  rewrite (get_own _ _ _ Haccount), Hdate, Hobject, Hamount,
    amount_check_never_holds, Hid. simpl.
  unfold has_id in Hnew. now rewrite Hnew.
Qed.

(** A request whose id is on the account is refused. *)
Lemma post_transactions_conflict :
  existsb (has_id id1) (transactions account) = true ->
  post_transactions db name req =
    (json 409 (error "Transaction already exists"), db).
Proof.
  intros Hold. unfold post_transactions.
  rewrite (get_own _ _ _ Haccount), Hdate, Hobject, Hamount,
    amount_check_never_holds, Hid. simpl.
  unfold has_id in Hold. now rewrite Hold.
Qed.

End ValidRequest.

(** Every answer of the handler is one of the five cases. *)
Lemma post_transactions_answers (db : ledger) (name : string) (req : body) :
  post_transactions_answer db name req (post_transactions db name req).
Proof.
  destruct (get db name) as [account| |] eqn:Hget.
  - apply get_own_inv in Hget as Hdb.
    destruct (truthy (req !!! "date")) eqn:Hd;
      [destruct (truthy (req !!! "object")) eqn:Ho;
       [destruct (truthy (req !!! "amount")) eqn:Ha|]|];
      try (unfold post_transactions; rewrite Hget, Hd, ?Ho, ?Ha; simpl;
           apply no_parameters; [congruence | now rewrite Hd, ?Ho, ?Ha]).
    destruct (generate_id req) as [id1|] eqn:Hid.
    + destruct (existsb (has_id id1) (transactions account)) eqn:He.
      * rewrite (post_transactions_conflict db name req account id1); try assumption.
        now apply (exists_already db name req account id1).
      * rewrite (post_transactions_created db name req account id1); try assumption.
        now apply created.
    + unfold post_transactions.
      rewrite Hget, Hd, Ho, Ha, amount_check_never_holds, Hid. simpl.
      apply throws; try assumption; [congruence | now left].
  - unfold post_transactions. rewrite Hget.
    destruct (negb (truthy (req !!! "date")) || negb (truthy (req !!! "object"))
              || negb (truthy (req !!! "amount"))) eqn:Hp.
    + apply no_parameters; [congruence | exact Hp].
    + rewrite amount_check_never_holds.
      apply orb_false_iff in Hp as [Hp Ha]. apply orb_false_iff in Hp as [Hd Ho].
      apply negb_false_iff in Hd, Ho, Ha.
      replace (match generate_id req with Some _ | _ => (TypeError, db) end)
        with (TypeError, db) by now destruct (generate_id req).
      apply throws; try assumption; [congruence | now right].
  - unfold post_transactions. rewrite Hget. now apply no_user.
Qed.

(** Only the path that stores the transaction answers 201. *)
Lemma post_transactions_201 (db : ledger) (name : string) (req : body)
    (r : response) (db' : ledger) :
  post_transactions db name req = (r, db') -> status r = 201 ->
  exists account id1,
    db !! name = Some account /\
    truthy (req !!! "date") = true /\
    truthy (req !!! "object") = true /\
    truthy (req !!! "amount") = true /\
    generate_id req = Some id1 /\
    existsb (has_id id1) (transactions account) = false.
Proof.
  intros H Hs. pose proof (post_transactions_answers db name req) as Hans.
  rewrite H in Hans.
  inversion Hans; subst; try discriminate.
  now exists account, id1.
Qed.

(** *** Properties of every account of the ledger *)

Section Invariants.

Variable P : Account -> Prop.

Lemma all_accounts_empty : all_accounts P ∅.
Proof. intros key account H. rewrite lookup_empty in H. discriminate. Qed.

Lemma all_accounts_insert (db : ledger) (key : string) (account : Account) :
  all_accounts P db -> P account -> all_accounts P (<[key := account]> db).
Proof.
  intros Hdb Ha key' account' H.
  destruct (decide (key = key')) as [->|Hne].
  - rewrite lookup_insert_eq in H. now inversion H; subst.
  - rewrite lookup_insert_ne in H by assumption. eapply Hdb, H.
Qed.

Lemma all_accounts_delete (db : ledger) (key : string) :
  all_accounts P db -> all_accounts P (delete key db).
Proof.
  intros Hdb key' account' H.
  destruct (decide (key = key')) as [->|Hne].
  - rewrite lookup_delete_eq in H. discriminate.
  - rewrite lookup_delete_ne in H by assumption. eapply Hdb, H.
Qed.

(** Creating an account keeps the property when the new account has
    it. *)
Lemma post_accounts_keeps (db : ledger) (req : body) :
  all_accounts P db ->
  (forall account,
     (post_accounts db req).1 = json 201 (of_account account) -> P account) ->
  all_accounts P (post_accounts db req).2.
Proof.
  intros Hdb. unfold post_accounts.
  destruct (_ || _); [intros _; exact Hdb|].
  destruct (get db _); try (intros _; exact Hdb).
  destruct (_ && isNaN _); [intros _; exact Hdb|]. simpl.
  intros Hnew. apply all_accounts_insert; [exact Hdb|]. now apply Hnew.
Qed.

Lemma delete_account_keeps (db : ledger) (name : string) :
  all_accounts P db -> all_accounts P (delete_account db name).2.
Proof.
  intros Hdb. unfold delete_account.
  destruct (get db name); try exact Hdb; now apply all_accounts_delete.
Qed.

(** Adding a transaction keeps the property when the account has it
    once the transaction is pushed and the balance updated. *)
Lemma post_transactions_keeps (db : ledger) (name : string) (req : body) :
  all_accounts P db ->
  (forall account id1,
     db !! name = Some account -> P account ->
     generate_id req = Some id1 ->
     existsb (has_id id1) (transactions account) = false ->
     P (add_balance (push account (new_transaction req id1))
          (amount (new_transaction req id1)))) ->
  all_accounts P (post_transactions db name req).2.
Proof.
  intros Hdb Hnew.
  destruct (post_transactions_answers db name req); try exact Hdb.
  simpl. apply all_accounts_insert; [exact Hdb|]. eauto.
Qed.

(** Removing a transaction keeps the property when the account has it
    once the transaction is spliced out. *)
Lemma delete_transaction_keeps (db : ledger) (name id0 : string) :
  all_accounts P db ->
  (forall account before t after,
     db !! name = Some account -> P account ->
     transactions account = before ++ t :: after ->
     existsb (has_id id0) before = false ->
     P (splice account (Z.of_nat (length before)))) ->
  all_accounts P (delete_transaction db name id0).2.
Proof.
  intros Hdb Hnew. unfold delete_transaction.
  destruct (get db name) as [account| |] eqn:Hget; try exact Hdb.
  apply get_own_inv in Hget.
  destruct (existsb (has_id id0) (transactions account)) eqn:He.
  - destruct (findIndex_first _ _ He) as (before & t & after & Hl & _ & Hb & Hi).
    unfold has_id in Hi. rewrite Hi.
    destruct (Z.eqb_spec (Z.of_nat (length before)) (-1)) as [Hneg|_]; [lia|].
    simpl. apply all_accounts_insert; [exact Hdb|]. eauto.
  - unfold has_id in He. rewrite (findIndex_none _ _ He). exact Hdb.
Qed.

End Invariants.

(** The ids stay unique within each account, whatever the requests. *)
Lemma default_db_unique_ids : all_accounts unique_ids default_db.
Proof.
  apply all_accounts_insert; [apply all_accounts_empty|].
  unfold unique_ids. simpl. compute_done.
Qed.

Lemma unique_ids_preserved (db : ledger) :
  all_accounts unique_ids db ->
  (forall req : body, all_accounts unique_ids (post_accounts db req).2) /\
  (forall name : string, all_accounts unique_ids (delete_account db name).2) /\
  (forall (name : string) (req : body),
     all_accounts unique_ids (post_transactions db name req).2) /\
  (forall name id0 : string,
     all_accounts unique_ids (delete_transaction db name id0).2).
Proof.
  intros Hdb. split; [|split; [|split]].
  - intros req. apply post_accounts_keeps; [exact Hdb|].
    intros account. unfold post_accounts.
    destruct (_ || _); [discriminate|].
    destruct (get db _); try discriminate.
    destruct (_ && isNaN _); [discriminate|]. simpl.
    intros H. inversion H. apply NoDup_nil_2.
  - intros name. now apply delete_account_keeps.
  - intros name req. apply post_transactions_keeps; [exact Hdb|].
    intros account id1 _ Hu _ He. unfold unique_ids in *. simpl.
    rewrite List.map_app. simpl.
    apply NoDup_app. split; [exact Hu|]. split; [|apply NoDup_singleton].
    intros x Hx Hin. apply list_elem_of_singleton in Hin. subst x.
    now apply (has_id_absent id1) in He.
  - intros name id0. apply delete_transaction_keeps; [exact Hdb|].
    intros account before t after _ Hu Hl _. unfold unique_ids in *. simpl.
    rewrite Hl, splice1_middle. rewrite Hl, List.map_app in Hu. simpl in Hu.
    rewrite List.map_app.
    apply NoDup_app in Hu as (Hb & Hsep & Ha).
    apply NoDup_cons in Ha as [_ Ha].
    apply NoDup_app. split; [exact Hb|]. split; [|exact Ha].
    intros x Hx Hin. apply (Hsep x Hx). now right.
Qed.

(** *** The default data *)

(** C10: when [db.json] is missing or cannot be parsed, [db] is the
    default data: the single account "test" with balance 75, whose three
    transactions have the amounts 50, -10 and -5; these sum to 35, so the
    balance of the default account differs from the sum of its
    transactions. *)
Theorem default_db_balance_differs :
  load NoFile = default_db /\ load Unparsable = default_db /\
  exists account,
    default_db = {[ "test" := account ]} /\
    default_db !! "test" = Some account /\
    balance account = VNum 75 /\
    map amount (transactions account) = [VNum 50; VNum (-10); VNum (-5)] /\
    sum_amounts (transactions account) = VNum 35 /\
    balance account <> sum_amounts (transactions account).
Proof.
  split; [reflexivity|]. split; [reflexivity|].
  exists test_account. split; [reflexivity|].
  split; [reflexivity|]. split; [reflexivity|]. split; [reflexivity|].
  split; [vm_compute; reflexivity|].
  intros H.
  apply (f_equal (fun v => match v with VNum x => PrimFloat.eqb x 75 | _ => false end)) in H.
  vm_compute in H. discriminate.
Qed.

(** *** Adding a transaction *)

(** C9: the answer "Amount must be a number" is never given: after the
    conversion of the amount, the test that guards it holds for no value
    (NaN is not truthy).  A string amount that [parseFloat] turns into
    NaN is therefore stored when the other fields are present and the id,
    the digest of [date + object + amount], is new to the account: the
    answer is 201 with a transaction whose amount is NaN, and this
    transaction is the last of the transactions of the account, after the
    former ones, while the balance is the former balance [+] NaN. *)
Theorem invalid_amount_unreachable (db : ledger) (name : string) (req : body) :
  truthy (converted (req !!! "amount")) && isNaN (converted (req !!! "amount")) = false /\
  is_error (post_transactions db name req).1 400 "Amount must be a number" = false /\
  forall (account : Account) (s : string),
    db !! name = Some account ->
    truthy (req !!! "date") = true ->
    truthy (req !!! "object") = true ->
    req !!! "amount" = VStr s ->
    truthy (VStr s) = true ->
    PrimFloat.is_nan (parseFloat (VStr s)) = true ->
    let id1 :=
      MD5.md5_hex (to_string (add (req !!! "date") (req !!! "object")) +:+ s) in
    existsb (fun t => String.eqb (id t) id1) (transactions account) = false ->
    let transaction :=
      {| id := id1; date := req !!! "date"; object := req !!! "object";
         amount := VNum (parseFloat (VStr s)) |} in
    let account' :=
      {| user := user account; currency := currency account;
         description := description account;
         balance := add (balance account) (VNum (parseFloat (VStr s)));
         transactions := transactions account ++ [transaction] |} in
    isNaN (amount transaction) = true /\
    post_transactions db name req =
      (json 201 (of_transaction transaction), <[name := account']> db) /\
    (post_transactions db name req).2 !! name = Some account' /\
    last (transactions account') = Some transaction /\
    length (transactions account') = S (length (transactions account)).
Proof.
  split; [apply amount_check_never_holds|]. split.
  - now destruct (post_transactions_answers db name req).
  - intros account s Hdb Hd Ho Hs Ht Hnan id1 Hnew transaction account'.
    split; [exact Hnan|].
    assert (Ha : truthy (req !!! "amount") = true) by now rewrite Hs.
    assert (Hid : generate_id req = Some id1).
    { unfold generate_id. rewrite Hs. unfold add at 1.
      now rewrite orb_true_r. }
    assert (Hpost : post_transactions db name req =
                      (json 201 (of_transaction transaction), <[name := account']> db)).
    { rewrite (post_transactions_created db name req account id1 Hdb Hd Ho Ha Hid Hnew).
      unfold transaction, account', new_transaction, converted, add_balance, push.
      simpl. rewrite Hs, Ht. reflexivity. }
    split; [exact Hpost|]. rewrite Hpost. simpl.
    split; [apply lookup_insert_eq|].
    split; [apply last_snoc | rewrite length_app; simpl; lia].
Qed.

Lemma invalid_amount_unreachable_witness :
  let transaction :=
    {| id := "00add49741f9aa935628146131311bb5";
       date := VStr "2020-10-05"; object := VStr "Coffee";
       amount := VNum (parseFloat (VStr "abc")) |} in
  let account' :=
    {| user := VStr "test"; currency := VStr "$";
       description := VStr "Test account";
       balance := add (VNum 75) (VNum (parseFloat (VStr "abc")));
       transactions := transactions test_account ++ [transaction] |} in
  isNaN (amount transaction) = true /\
  post_transactions default_db "test" coffee =
    (json 201 (of_transaction transaction), <["test" := account']> default_db) /\
  (post_transactions default_db "test" coffee).2 !! "test" = Some account' /\
  last (transactions account') = Some transaction /\
  length (transactions account') = 4%nat.
Proof.
  apply (proj2 (proj2 (invalid_amount_unreachable default_db "test" coffee))
           test_account "abc");
    vm_compute; reflexivity.
Defined.

(** C2: a request whose amount is the string "abc", which [parseFloat]
    turns into NaN, is answered with 201 and not with 400: the
    transaction is stored with the amount NaN and the balance of the
    account becomes NaN. *)
Theorem nan_amount_is_stored :
  parseFloat (VStr "abc") = nan /\
  post_transactions default_db "test" coffee =
    (json 201
       (of_transaction
          {| id := "00add49741f9aa935628146131311bb5";
             date := VStr "2020-10-05"; object := VStr "Coffee";
             amount := VNum nan |}),
     {[ "test" :=
        {| user := VStr "test"; currency := VStr "$";
           description := VStr "Test account"; balance := VNum nan;
           transactions :=
             [ {| id := "1"; date := VStr "2020-10-01";
                  object := VStr "Pocket money"; amount := VNum 50 |};
               {| id := "2"; date := VStr "2020-10-03";
                  object := VStr "Book"; amount := VNum (-10) |};
               {| id := "3"; date := VStr "2020-10-04";
                  object := VStr "Sandwich"; amount := VNum (-5) |};
               {| id := "00add49741f9aa935628146131311bb5";
                  date := VStr "2020-10-05"; object := VStr "Coffee";
                  amount := VNum nan |} ] |} ]}).
Proof. split; vm_compute; reflexivity. Qed.

(** C8: the id of a transaction is a function of the date, the object
    and the amount of the request as they were sent: the hexadecimal MD5
    digest of [date + object + amount].  With a date or an object that is
    a string, as in the data model, that is the concatenation of the three
    fields in this order, the amount in its form before the conversion.
    Two requests with the same three fields get the same id, and the
    transaction a request stores carries that id. *)
Theorem transaction_id_is_digest (req : body) :
  (is_string (req !!! "date") || is_string (req !!! "object") = true ->
   generate_id req =
     Some (MD5.md5_hex ((to_string (req !!! "date") +:+ to_string (req !!! "object"))
                        +:+ to_string (req !!! "amount")))) /\
  (forall req' : body,
     req' !!! "date" = req !!! "date" ->
     req' !!! "object" = req !!! "object" ->
     req' !!! "amount" = req !!! "amount" ->
     generate_id req' = generate_id req) /\
  (forall (db db' : ledger) (name : string) (t : Transaction),
     post_transactions db name req = (json 201 (of_transaction t), db') ->
     generate_id req = Some (id t)).
Proof.
  split; [|split].
  - intros Hs. unfold generate_id, add at 2. rewrite Hs.
    unfold add. simpl. reflexivity.
  - intros req' Hd Ho Ha. unfold generate_id. now rewrite Hd, Ho, Ha.
  - intros db db' name t H.
    destruct (post_transactions_201 db name req _ _ H eq_refl)
      as (account & id1 & Hdb & Hd & Ho & Ha & Hid & Hnew).
    rewrite (post_transactions_created db name req account id1 Hdb Hd Ho Ha Hid Hnew) in H.
    inversion H. now rewrite Hid.
Qed.

Lemma transaction_id_is_digest_witness :
  generate_id gift = Some (MD5.md5_hex "2021-01-01Gift20") /\
  generate_id gift = Some "1fd9ab84cdf17f9e1b7527b0a7865c30".
Proof.
  split.
  - apply (proj1 (transaction_id_is_digest gift)). vm_compute. reflexivity.
  - vm_compute. reflexivity.
Defined.

(** C5: a request to add a transaction that is answered with 201 was
    made on an existing account, with a truthy amount; the answer is the
    new transaction, made of the generated id (the digest of
    [date + object + amount], new to the account), the date and the object
    of the request and its amount as a number: the amount itself when the
    request gives a number, [parseFloat] of it otherwise; the ledger
    differs only at this account, whose transactions are the former ones
    followed by the new one and whose balance is the former balance [+]
    that number; the other fields of the account are unchanged. *)
Theorem post_transactions_appends (db db' : ledger) (name : string) (req : body)
    (r : response) :
  post_transactions db name req = (r, db') -> status r = 201 ->
  exists (account : Account) (id1 : string) (x : float),
    let transaction :=
      {| id := id1; date := req !!! "date"; object := req !!! "object";
         amount := VNum x |} in
    let account' :=
      {| user := user account; currency := currency account;
         description := description account;
         balance := add (balance account) (VNum x);
         transactions := transactions account ++ [transaction] |} in
    db !! name = Some account /\
    generate_id req = Some id1 /\
    converted (req !!! "amount") = VNum x /\
    r = json 201 (of_transaction transaction) /\
    db' = <[name := account']> db /\
    (forall b : float, balance account = VNum b ->
                       balance account' = VNum (PrimFloat.add b x)) /\
    truthy (req !!! "amount") = true /\
    (forall y : float, req !!! "amount" = VNum y -> x = y) /\
    (is_number (req !!! "amount") = false -> x = parseFloat (req !!! "amount")) /\
    (exists data : string,
       add (add (req !!! "date") (req !!! "object")) (req !!! "amount") = VStr data /\
       id1 = MD5.md5_hex data) /\
    existsb (fun t => String.eqb (id t) id1) (transactions account) = false.
Proof.
  intros H Hs.
  destruct (post_transactions_201 db name req _ _ H Hs)
    as (account & id1 & Hdb & Hd & Ho & Ha & Hid & Hnew).
  destruct (converted_number _ Ha) as [x Hx].
  rewrite (post_transactions_created db name req account id1 Hdb Hd Ho Ha Hid Hnew) in H.
  unfold new_transaction in H. rewrite Hx in H. inversion H; subst.
  exists account, id1, x. simpl.
  repeat (split; [assumption || reflexivity|]).
  split; [intros b Hb; now rewrite Hb|].
  split; [exact Ha|].
  split; [|split; [|split; [|exact Hnew]]].
  - intros y Hy. unfold converted in Hx. rewrite Hy in Hx. simpl in Hx.
    rewrite andb_false_r in Hx. now inversion Hx.
  - intros Hn. unfold converted in Hx. rewrite Ha, Hn in Hx. simpl in Hx.
    now inversion Hx.
  - unfold generate_id, md5 in Hid.
    destruct (add (add (req !!! "date") (req !!! "object")) (req !!! "amount"))
      as [| | | |data]; try discriminate.
    exists data. split; [reflexivity|]. now inversion Hid.
Qed.

Lemma post_transactions_appends_witness :
  exists (account : Account) (id1 : string) (x : float),
    default_db !! "test" = Some account /\
    generate_id gift = Some id1 /\
    converted (gift !!! "amount") = VNum x /\
    (post_transactions default_db "test" gift).1 =
      json 201
        (of_transaction
           {| id := id1; date := gift !!! "date"; object := gift !!! "object";
              amount := VNum x |}) /\
    (post_transactions default_db "test" gift).2 =
      <["test" :=
          {| user := user account; currency := currency account;
             description := description account;
             balance := add (balance account) (VNum x);
             transactions :=
               transactions account ++
               [ {| id := id1; date := gift !!! "date";
                    object := gift !!! "object"; amount := VNum x |} ] |}]>
        default_db /\
    (forall b : float,
       balance account = VNum b ->
       add (balance account) (VNum x) = VNum (PrimFloat.add b x)) /\
    truthy (gift !!! "amount") = true /\
    (forall y : float, gift !!! "amount" = VNum y -> x = y) /\
    (is_number (gift !!! "amount") = false -> x = parseFloat (gift !!! "amount")) /\
    (exists data : string,
       add (add (gift !!! "date") (gift !!! "object")) (gift !!! "amount") = VStr data /\
       id1 = MD5.md5_hex data) /\
    existsb (fun t => String.eqb (id t) id1) (transactions account) = false.
Proof.
  apply (post_transactions_appends default_db
           (post_transactions default_db "test" gift).2 "test" gift
           (post_transactions default_db "test" gift).1).
  - now destruct (post_transactions default_db "test" gift).
  - vm_compute. reflexivity.
Defined.

(** C3: on an existing account, a request with a date, an object and
    an amount that is sent twice is answered the second time with 409
    "Transaction already exists", and the second request leaves the
    ledger, hence the transactions and the balance of the account, as the
    first one left it.  After the first request the account holds exactly
    one transaction with the generated id, provided the first request
    stored it or the ids of the account were unique, as the data model has
    them. *)
Theorem post_transactions_twice (db : ledger) (name : string) (req : body)
    (account : Account) (id1 : string) :
  db !! name = Some account ->
  truthy (req !!! "date") = true ->
  truthy (req !!! "object") = true ->
  truthy (req !!! "amount") = true ->
  generate_id req = Some id1 ->
  exists (r1 : response) (db1 : ledger) (account1 : Account),
    post_transactions db name req = (r1, db1) /\
    (status r1 = 201 \/ status r1 = 409) /\
    post_transactions db1 name req =
      (json 409 (error "Transaction already exists"), db1) /\
    db1 !! name = Some account1 /\
    (status r1 = 201 \/ unique_ids account ->
     count_id id1 (transactions account1) = 1%nat).
Proof.
  intros Hdb Hd Ho Ha Hid.
  destruct (existsb (has_id id1) (transactions account)) eqn:He.
  - pose proof (post_transactions_conflict db name req account id1 Hdb Hd Ho Ha Hid He) as H1.
    exists (json 409 (error "Transaction already exists")), db, account.
    split; [exact H1|]. split; [now right|]. split; [exact H1|].
    split; [exact Hdb|].
    intros [Hs|Hu]; [discriminate|].
    pose proof (unique_ids_count id1 _ Hu). pose proof (count_id_some _ _ He). lia.
  - pose proof (post_transactions_created db name req account id1 Hdb Hd Ho Ha Hid He) as H1.
    set (t := new_transaction req id1) in *.
    set (account1 := add_balance (push account t) (amount t)) in *.
    exists (json 201 (of_transaction t)), (<[name := account1]> db), account1.
    assert (Hnew : existsb (has_id id1) (transactions account1) = true).
    { simpl. rewrite existsb_app. simpl. unfold has_id at 2. simpl.
      rewrite String.eqb_refl. now rewrite orb_true_r. }
    split; [exact H1|]. split; [now left|]. split; [|split].
    + apply (post_transactions_conflict _ name req account1 id1); try assumption.
      apply lookup_insert_eq.
    + apply lookup_insert_eq.
    + intros _. simpl. rewrite count_id_app, (count_id_none _ _ He).
      unfold count_id, has_id. simpl. now rewrite String.eqb_refl.
Qed.

Lemma post_transactions_twice_witness :
  exists (r1 : response) (db1 : ledger) (account1 : Account),
    post_transactions default_db "test" gift = (r1, db1) /\
    (status r1 = 201 \/ status r1 = 409) /\
    post_transactions db1 "test" gift =
      (json 409 (error "Transaction already exists"), db1) /\
    db1 !! "test" = Some account1 /\
    (status r1 = 201 \/ unique_ids test_account ->
     count_id "1fd9ab84cdf17f9e1b7527b0a7865c30" (transactions account1) = 1%nat).
Proof.
  apply (post_transactions_twice default_db "test" gift test_account
           "1fd9ab84cdf17f9e1b7527b0a7865c30");
    [reflexivity | reflexivity | reflexivity | reflexivity
    | vm_compute; reflexivity].
Defined.

(** *** Removing a transaction *)

(** C4: removing a transaction whose id is on the account is answered
    with 204 and no body; it removes that transaction (the first one with
    this id) from the transactions of the account, keeps the others in
    their order, and leaves the balance of the account as it was. *)
Theorem delete_transaction_keeps_balance (db : ledger) (name id0 : string)
    (account : Account) :
  db !! name = Some account ->
  existsb (has_id id0) (transactions account) = true ->
  exists (before after : list Transaction) (t : Transaction),
    transactions account = before ++ t :: after /\
    id t = id0 /\
    existsb (has_id id0) before = false /\
    delete_transaction db name id0 =
      (sendStatus 204,
       <[name := {| user := user account; currency := currency account;
                    description := description account;
                    balance := balance account;
                    transactions := before ++ after |}]> db).
Proof.
  intros Hdb He.
  destruct (findIndex_first _ _ He) as (before & t & after & Hl & Ht & Hb & Hi).
  exists before, after, t. repeat split; try assumption.
  - unfold has_id in Ht. now apply String.eqb_eq.
  - unfold delete_transaction. rewrite (get_own _ _ _ Hdb).
    unfold has_id in Hi. rewrite Hi.
    destruct (Z.eqb_spec (Z.of_nat (length before)) (-1)) as [Hneg|_]; [lia|].
    unfold splice. now rewrite Hl, splice1_middle.
Qed.

Lemma delete_transaction_keeps_balance_witness :
  exists (before after : list Transaction) (t : Transaction),
    transactions test_account = before ++ t :: after /\
    id t = "2" /\
    existsb (has_id "2") before = false /\
    delete_transaction default_db "test" "2" =
      (sendStatus 204,
       <["test" := {| user := VStr "test"; currency := VStr "$";
                      description := VStr "Test account";
                      balance := VNum 75;
                      transactions := before ++ after |}]> default_db).
Proof.
  apply (delete_transaction_keeps_balance default_db "test" "2"
           test_account);
    reflexivity.
Defined.

(** C7: removing a transaction whose id is not on an existing account is
    answered with 404 "Transaction does not exist" and leaves the whole
    ledger, hence the transactions and the balance of the account,
    unchanged. *)
Theorem delete_transaction_not_found (db : ledger) (name id0 : string)
    (account : Account) :
  db !! name = Some account ->
  existsb (has_id id0) (transactions account) = false ->
  delete_transaction db name id0 =
    (json 404 (error "Transaction does not exist"), db).
Proof.
  intros Hdb He. unfold delete_transaction. rewrite (get_own _ _ _ Hdb).
  unfold has_id in He. now rewrite (findIndex_none _ _ He).
Qed.

Lemma delete_transaction_not_found_witness :
  delete_transaction default_db "test" "7" =
    (json 404 (error "Transaction does not exist"), default_db).
Proof.
  apply (delete_transaction_not_found default_db "test" "7"
           test_account);
    reflexivity.
Defined.

(** *** Creating an account *)

(** C6, as stated, fails: a request to create the existing account
    "test" that names no currency is answered with 400 "Missing
    parameters", not with 409. *)
Lemma post_accounts_existing_missing_currency :
  exists (req : body) (account : Account),
    default_db !! to_string (req !!! "user") = Some account /\
    post_accounts default_db req =
      (json 400 (error "Missing parameters"), default_db) /\
    status (post_accounts default_db req).1 <> 409.
Proof.
  exists {[ "user" := VStr "test" ]}. eexists.
  split; [reflexivity|]. split; [reflexivity|].
  vm_compute. discriminate.
Qed.

(** C6, amended: a request to create an account whose user is already
    in the ledger leaves the ledger unchanged; it is answered with 409
    "User already exists" whatever the description and the balance of the
    request are, provided its user and its currency are truthy, and with
    400 "Missing parameters" otherwise. *)
Theorem post_accounts_existing (db : ledger) (req : body) (account : Account) :
  db !! to_string (req !!! "user") = Some account ->
  (post_accounts db req).2 = db /\
  (truthy (req !!! "user") = true -> truthy (req !!! "currency") = true ->
   (post_accounts db req).1 = json 409 (error "User already exists")) /\
  (truthy (req !!! "user") && truthy (req !!! "currency") = false ->
   (post_accounts db req).1 = json 400 (error "Missing parameters")).
Proof.
  intros Hdb. unfold post_accounts. rewrite (get_own _ _ _ Hdb).
  destruct (truthy (req !!! "user")), (truthy (req !!! "currency")); simpl;
    repeat split; intros; congruence.
Qed.

Lemma post_accounts_existing_witness :
  (post_accounts default_db test_again).2 = default_db /\
  (post_accounts default_db test_again).1 = json 409 (error "User already exists").
Proof.
  split.
  - apply (proj1 (post_accounts_existing default_db test_again test_account
                    eq_refl)).
  - apply (proj1 (proj2 (post_accounts_existing default_db test_again test_account
                           eq_refl))); reflexivity.
Defined.

(** *** The balance and the sum of the transactions *)

(** C1, as stated, fails: creating the account "bob" with the initial
    balance 100 in an empty ledger is answered with 201 and leaves an
    account whose balance is 100 while it has no transaction, the sum of
    whose amounts is 0. *)
Lemma balance_differs_after_create :
  exists (db : ledger) (req : body) (account : Account),
    all_accounts consistent db /\
    status (post_accounts db req).1 = 201 /\
    (post_accounts db req).2 !! "bob" = Some account /\
    balance account = VNum 100 /\
    sum_amounts (transactions account) = VNum 0 /\
    strict_equal (balance account) (sum_amounts (transactions account)) = false /\
    ~ consistent account.
Proof.
  exists ∅, bob. eexists.
  split; [apply all_accounts_empty|].
  split; [reflexivity|]. split; [vm_compute; reflexivity|].
  split; [reflexivity|]. split; [reflexivity|].
  split; [vm_compute; reflexivity|].
  unfold consistent. vm_compute. discriminate.
Qed.

(** The account a request creates. *)
Lemma post_accounts_201 (db : ledger) (req : body) (account : Account) :
  (post_accounts db req).1 = json 201 (of_account account) ->
  transactions account = [] /\
  (truthy (req !!! "balance") = false -> balance account = VNum 0) /\
  (post_accounts db req).2 = <[to_string (req !!! "user") := account]> db.
Proof.
  unfold post_accounts.
  destruct (_ || _); [discriminate|].
  destruct (get db _); try discriminate.
  destruct (truthy (req !!! "balance")) eqn:Hb; simpl.
  - destruct (_ && isNaN _); [discriminate|]. simpl.
    intros H. inversion H. repeat split. discriminate.
  - intros H. inversion H. repeat split. intros _. unfold or. now rewrite Hb.
Qed.

(** The balance of the account a request creates is the initial balance
    it supplies: the number itself, [parseFloat] of any other truthy value
    (equal to it as a number: -0 becomes 0), and 0 when there is none. *)
Lemma post_accounts_201_balance (db : ledger) (req : body) (account : Account) :
  (post_accounts db req).1 = json 201 (of_account account) ->
  exists x : float,
    balance account = VNum x /\
    (truthy (req !!! "balance") = false -> x = 0%float) /\
    (forall y : float,
       req !!! "balance" = VNum y -> truthy (VNum y) = true -> x = y) /\
    (truthy (req !!! "balance") = true ->
     is_number (req !!! "balance") = false ->
     PrimFloat.eqb (parseFloat (req !!! "balance")) x = true).
Proof.
  unfold post_accounts.
  destruct (_ || _); [discriminate|].
  destruct (get db _); try discriminate.
  destruct (truthy (req !!! "balance")) eqn:Hb; simpl.
  - destruct (is_number (req !!! "balance")) eqn:Hn; simpl.
    + intros H. inversion H; subst; clear H. simpl.
      destruct (req !!! "balance") as [| | |y|]; try discriminate.
      exists y. unfold or. rewrite Hb.
      split; [reflexivity|]. split; [discriminate|]. split.
      * intros y' Hy _. now inversion Hy.
      * discriminate.
    + unfold isNaN. simpl.
      destruct (PrimFloat.is_nan (parseFloat (req !!! "balance"))) eqn:Hnan;
        [discriminate|].
      intros H. inversion H; subst; clear H. simpl. unfold or.
      destruct (truthy (VNum (parseFloat (req !!! "balance")))) eqn:Ht.
      * exists (parseFloat (req !!! "balance")).
        split; [reflexivity|]. split; [discriminate|]. split.
        -- intros y Hy. rewrite Hy in Hn. discriminate.
        -- intros _ _. unfold PrimFloat.is_nan in Hnan.
           now apply negb_false_iff in Hnan.
      * exists 0%float.
        split; [reflexivity|]. split; [reflexivity|]. split.
        -- intros y Hy. rewrite Hy in Hn. discriminate.
        -- intros _ _. simpl in Ht. rewrite Hnan, orb_false_r in Ht.
           now apply negb_false_iff in Ht.
  - intros H. inversion H; subst; clear H. simpl.
    exists 0%float. unfold or. rewrite Hb.
    split; [reflexivity|]. split; [reflexivity|]. split.
    + intros y Hy Ht. rewrite Hy in Hb. simpl in Hb. congruence.
    + intros Ht. discriminate.
Qed.

(** Two numbers that are equal ([===]) are the same, or both zeros. *)
Lemma SFeqb_true (f1 f2 : spec_float) :
  SFeqb f1 f2 = true ->
  f1 = f2 \/ exists s1 s2, f1 = S754_zero s1 /\ f2 = S754_zero s2.
Proof.
  unfold SFeqb, SFcompare.
  destruct f1 as [s1|s1| |s1 m1 e1], f2 as [s2|s2| |s2 m2 e2];
    try discriminate; try (destruct s1; discriminate);
    try (destruct s2; discriminate).
  - intros _. right. now exists s1, s2.
  - destruct s1, s2; try discriminate; now left.
  - destruct s1, s2; try discriminate;
      (destruct (Z.compare_spec e1 e2) as [He| |]; try discriminate);
      (destruct (Pos.compare_cont Eq m1 m2) eqn:Hm; try discriminate);
      intros _; left; apply Pos.compare_eq in Hm; now subst.
Qed.

(** Adding the same number to two equal numbers gives equal numbers,
    unless the sum is NaN. *)
Lemma eqb_add_r (b s x : float) :
  PrimFloat.eqb b s = true ->
  PrimFloat.is_nan (PrimFloat.add b x) = false ->
  PrimFloat.eqb (PrimFloat.add b x) (PrimFloat.add s x) = true.
Proof.
  unfold PrimFloat.is_nan. rewrite !FloatAxioms.eqb_spec, !FloatAxioms.add_spec.
  intros Hbs Hn. apply negb_false_iff in Hn.
  destruct (SFeqb_true _ _ Hbs) as [E|(s1 & s2 & E1 & E2)].
  - now rewrite <- E.
  - rewrite E1, E2 in *. unfold SF64add in *.
    destruct (Prim2SF x) as [sx|sx| |sx mx ex]; simpl in *;
      try assumption; try discriminate.
    now destruct s1, s2, sx.
Qed.

(** The same for [a + x] on values that are equal ([===]). *)
Lemma strict_equal_add (a b : value) (x : float) :
  strict_equal a b = true ->
  Number_isNaN (add a (VNum x)) = false ->
  strict_equal (add a (VNum x)) (add b (VNum x)) = true.
Proof.
  assert (Hrefl : forall y, PrimFloat.is_nan y = false -> PrimFloat.eqb y y = true).
  { intros y Hy. unfold PrimFloat.is_nan in Hy. now apply negb_false_iff in Hy. }
  destruct a as [| |p|y|s], b as [| |p'|y'|s']; simpl; try discriminate;
    unfold add; simpl.
  - intros _. apply Hrefl.
  - intros _. apply Hrefl.
  - intros E. apply Bool.eqb_prop in E. subst p'. apply Hrefl.
  - apply eqb_add_r.
  - intros E _. apply String.eqb_eq in E. subst s'. apply String.eqb_refl.
Qed.

(** What a request can do to an account that exists. *)
Lemma handle_existing_account (db : ledger) (q : request) (name : string)
    (account account' : Account) :
  db !! name = Some account ->
  (handle db q).2 !! name = Some account' ->
  account' = account \/
  (exists (req : body) (id1 : string),
     q = PostTransactions name req /\
     truthy (req !!! "amount") = true /\
     account' = add_balance (push account (new_transaction req id1))
                  (amount (new_transaction req id1))) \/
  (exists id0 : string, q = DeleteTransaction name id0).
Proof.
  intros Hdb H.
  assert (Hsame : (handle db q).2 = db -> account' = account).
  { intros E. rewrite E, Hdb in H. now inversion H. }
  destruct q as [req|n|n|n req|n id0]; simpl in *.
  - left. revert H Hsame. unfold post_accounts.
    destruct (_ || _); [now auto|].
    destruct (get db _) eqn:Hget; try now auto.
    destruct (_ && isNaN _); [now auto|]. simpl.
    intros H _. unfold get in Hget.
    destruct (decide (to_string (req !!! "user") = name)) as [E|Hne].
    + rewrite E, Hdb in Hget. discriminate.
    + rewrite lookup_insert_ne in H by assumption. congruence.
  - left. apply Hsame. unfold get_account. now destruct (get db n).
  - left. revert H Hsame. unfold delete_account.
    destruct (get db n); simpl; try now auto.
    + intros H _. destruct (decide (n = name)) as [->|Hne].
      * rewrite lookup_delete_eq in H. discriminate.
      * rewrite lookup_delete_ne in H by assumption. congruence.
    + intros H _. destruct (decide (n = name)) as [->|Hne].
      * rewrite lookup_delete_eq in H. discriminate.
      * rewrite lookup_delete_ne in H by assumption. congruence.
  - destruct (post_transactions_answers db n req)
      as [| | | |acc id1 Hacc _ _ Ha _ _]; try (left; apply Hsame; reflexivity).
    simpl in *. destruct (decide (n = name)) as [->|Hne].
    + rewrite lookup_insert_eq in H. inversion H; subst; clear H.
      assert (acc = account) by congruence. subst acc.
      right; left. now exists req, id1.
    + rewrite lookup_insert_ne in H by assumption. left. congruence.
  - destruct (decide (n = name)) as [->|Hne]; [right; right; now exists id0|].
    left. revert H Hsame. unfold delete_transaction.
    destruct (get db n); try now auto.
    destruct (_ =? _); [now auto|]. simpl.
    intros H _. rewrite lookup_insert_ne in H by assumption. congruence.
Qed.

(** An account that did not exist before a request was created by it. *)
Lemma handle_new_account (db : ledger) (q : request) (name : string)
    (account' : Account) :
  db !! name = None ->
  (handle db q).2 !! name = Some account' ->
  exists req : body,
    q = PostAccounts req /\
    to_string (req !!! "user") = name /\
    (post_accounts db req).1 = json 201 (of_account account').
Proof.
  intros Hdb H.
  assert (Hsame : (handle db q).2 = db -> False).
  { intros E. rewrite E, Hdb in H. discriminate. }
  destruct q as [req|n|n|n req|n id0]; simpl in *.
  - exists req. split; [reflexivity|].
    revert H Hsame. unfold post_accounts.
    destruct (_ || _); [intros _ F; now destruct F|].
    destruct (get db _); try (intros _ F; now destruct F).
    destruct (_ && isNaN _); [intros _ F; now destruct F|]. simpl.
    intros H _.
    destruct (decide (to_string (req !!! "user") = name)) as [E|Hne].
    + subst name. rewrite lookup_insert_eq in H. inversion H. now split.
    + rewrite lookup_insert_ne in H by assumption. congruence.
  - exfalso. apply Hsame. unfold get_account. now destruct (get db n).
  - exfalso. revert H Hsame. unfold delete_account.
    destruct (get db n); simpl; try (intros _ F; now apply F);
      intros H _;
      (destruct (decide (n = name)) as [->|Hne];
       [rewrite lookup_delete_eq in H; discriminate
       |rewrite lookup_delete_ne in H by assumption; congruence]).
  - exfalso.
    destruct (post_transactions_answers db n req)
      as [| | | |acc id1 Hacc _ _ _ _ _]; try (apply Hsame; reflexivity).
    simpl in *. destruct (decide (n = name)) as [->|Hne]; [congruence|].
    rewrite lookup_insert_ne in H by assumption. congruence.
  - exfalso. revert H Hsame. unfold delete_transaction.
    destruct (get db n) as [acc| |] eqn:Hget; try (intros _ F; now apply F).
    destruct (_ =? _); [intros _ F; now apply F|]. simpl.
    intros H _. apply get_own_inv in Hget.
    destruct (decide (n = name)) as [->|Hne]; [congruence|].
    rewrite lookup_insert_ne in H by assumption. congruence.
Qed.

(** C1, amended: an account whose balance equals ([===]) the sum of the
    amounts of its transactions still has this property after every
    request that is not the removal of one of its transactions (a request
    to create or remove an account, to read one, to add a transaction to
    it or to another account), provided its balance has not become NaN.
    An account that a request has just created has no transactions and
    its balance is the initial balance the request supplies (0 when it
    supplies none), so it has the property exactly when that balance is 0.
    (Nothing is said here about the removal of a transaction, nor about a
    balance that becomes NaN.) *)
Theorem balance_is_sum_preserved (db : ledger) (q : request) (name : string)
    (account' : Account) :
  (handle db q).2 !! name = Some account' ->
  (forall id0 : string, q <> DeleteTransaction name id0) ->
  (forall account : Account,
     db !! name = Some account ->
     consistent account ->
     Number_isNaN (balance account') = false ->
     consistent account') /\
  (db !! name = None ->
   exists (req : body) (x : float),
     q = PostAccounts req /\
     to_string (req !!! "user") = name /\
     transactions account' = [] /\
     balance account' = VNum x /\
     (truthy (req !!! "balance") = false -> x = 0%float) /\
     (forall y : float,
        req !!! "balance" = VNum y -> truthy (VNum y) = true -> x = y) /\
     (truthy (req !!! "balance") = true ->
      is_number (req !!! "balance") = false ->
      PrimFloat.eqb (parseFloat (req !!! "balance")) x = true) /\
     (consistent account' <-> PrimFloat.is_zero x = true)).
Proof.
  intros H Hq. split.
  - intros account Hdb Hc Hnan.
    destruct (handle_existing_account db q name account account' Hdb H)
      as [->|[(req & id1 & -> & Ha & ->)|(id0 & ->)]].
    + exact Hc.
    + unfold consistent in *. simpl in *.
      destruct (converted_number _ Ha) as [x Hx]. rewrite Hx in *.
      rewrite sum_amounts_push. simpl. rewrite Hx.
      now apply strict_equal_add.
    + now contradiction (Hq id0).
  - intros Hdb.
    destruct (handle_new_account db q name account' Hdb H) as (req & -> & Hu & H201).
    destruct (post_accounts_201 db req account' H201) as (Ht & _ & _).
    destruct (post_accounts_201_balance db req account' H201) as (x & Hx & H0 & Hy & Hp).
    exists req, x. repeat (split; [assumption || reflexivity|]).
    unfold consistent. rewrite Ht, Hx. reflexivity.
Qed.

Lemma balance_is_sum_preserved_witness :
  consistent
    {| user := VStr "alice"; currency := VStr "$";
       description := VStr "alice's budget"; balance := VNum 20;
       transactions :=
         [ {| id := "1fd9ab84cdf17f9e1b7527b0a7865c30";
              date := VStr "2021-01-01"; object := VStr "Gift";
              amount := VNum 20 |} ] |} /\
  exists (req : body) (x : float),
    PostAccounts bob = PostAccounts req /\
    to_string (req !!! "user") = "bob" /\
    transactions
      {| user := VStr "bob"; currency := VStr "$";
         description := VStr "bob's budget"; balance := VNum 100;
         transactions := [] |} = [] /\
    VNum 100 = VNum x /\
    (truthy (req !!! "balance") = false -> x = 0%float) /\
    (forall y : float,
       req !!! "balance" = VNum y -> truthy (VNum y) = true -> x = y) /\
    (truthy (req !!! "balance") = true ->
     is_number (req !!! "balance") = false ->
     PrimFloat.eqb (parseFloat (req !!! "balance")) x = true) /\
    (consistent
       {| user := VStr "bob"; currency := VStr "$";
          description := VStr "bob's budget"; balance := VNum 100;
          transactions := [] |} <-> PrimFloat.is_zero x = true).
Proof.
  split.
  - apply (proj1 (balance_is_sum_preserved (post_accounts default_db alice).2
                    (PostTransactions "alice" gift) "alice" _
                    ltac:(vm_compute; reflexivity)
                    ltac:(discriminate))
             {| user := VStr "alice"; currency := VStr "$";
                description := VStr "alice's budget"; balance := VNum 0;
                transactions := [] |});
      vm_compute; reflexivity.
  - apply (proj2 (balance_is_sum_preserved default_db (PostAccounts bob) "bob"
                    {| user := VStr "bob"; currency := VStr "$";
                       description := VStr "bob's budget"; balance := VNum 100;
                       transactions := [] |}
                    ltac:(vm_compute; reflexivity)
                    ltac:(discriminate))).
    vm_compute. reflexivity.
Defined.

(** ** Further properties of the handlers *)

(** *** Creating, reading and removing accounts *)

Lemma description_default_truthy (s : string) :
  truthy (VStr (s +:+ "'s budget")) = true.
Proof.
  simpl. induction s as [|c s IH]; [reflexivity|]. reflexivity.
Qed.

(** The account of a 201 answer, field by field. *)
Lemma post_accounts_201_fields (db : ledger) (req : body) (account : Account) :
  (post_accounts db req).1 = json 201 (of_account account) ->
  truthy (req !!! "user") = true /\
  truthy (req !!! "currency") = true /\
  get db (to_string (req !!! "user")) = Missing /\
  user account = req !!! "user" /\
  currency account = req !!! "currency" /\
  truthy (description account) = true /\
  exists x, balance account = VNum x /\ PrimFloat.is_nan x = false.
Proof.
  unfold post_accounts.
  destruct (truthy (req !!! "user")) eqn:Hu; [|discriminate].
  destruct (truthy (req !!! "currency")) eqn:Hc; [|discriminate]. simpl.
  destruct (get db _) eqn:Hget; try discriminate.
  destruct (truthy (req !!! "balance")) eqn:Hb; simpl.
  - destruct (is_number (req !!! "balance")) eqn:Hn; simpl.
    + intros H. inversion H; subst; clear H. simpl.
      repeat split.
      * unfold or. destruct (truthy (req !!! "description")) eqn:Hd;
          [exact Hd | apply description_default_truthy].
      * destruct (req !!! "balance") as [| | |x|]; try discriminate.
        exists x. unfold or. rewrite Hb. split; [reflexivity|].
        simpl in Hb. now destruct (PrimFloat.is_nan x); rewrite ?orb_true_r in Hb.
    + unfold isNaN. simpl.
      destruct (PrimFloat.is_nan (parseFloat (req !!! "balance"))) eqn:Hnan;
        [discriminate|].
      intros H. inversion H; subst; clear H. simpl.
      repeat split.
      * unfold or. destruct (truthy (req !!! "description")) eqn:Hd;
          [exact Hd | apply description_default_truthy].
      * unfold or. destruct (truthy (VNum (parseFloat (req !!! "balance"))));
          [now exists (parseFloat (req !!! "balance"))|].
        exists 0%float. split; reflexivity.
  - intros H. inversion H; subst; clear H. simpl.
    repeat split.
    + unfold or. destruct (truthy (req !!! "description")) eqn:Hd;
        [exact Hd | apply description_default_truthy].
    + exists 0%float. unfold or. rewrite Hb. split; reflexivity.
Qed.

Lemma get_missing_lookup (db : ledger) (key : string) :
  get db key = Missing -> db !! key = None.
Proof. unfold get. now destruct (db !! key). Qed.

(** X1: once a request to create an account is answered with 201, a
    request to read the account of that user is answered with 200 and the
    account that was created, and another request to create an account
    for this user, with any currency, is answered with 409; both leave the
    ledger as the creation left it. *)
Theorem post_accounts_then_get (db db' : ledger) (req : body) (account : Account) :
  post_accounts db req = (json 201 (of_account account), db') ->
  get_account db' (to_string (req !!! "user")) = (json 200 (of_account account), db') /\
  forall req' : body,
    req' !!! "user" = req !!! "user" ->
    truthy (req' !!! "currency") = true ->
    post_accounts db' req' = (json 409 (error "User already exists"), db').
Proof.
  intros H.
  assert (H1 : (post_accounts db req).1 = json 201 (of_account account)) by now rewrite H.
  destruct (post_accounts_201 db req account H1) as (_ & _ & Hdb').
  destruct (post_accounts_201_fields db req account H1) as (Hu & _).
  rewrite H in Hdb'. simpl in Hdb'. subst db'.
  assert (Hl : (<[to_string (req !!! "user") := account]> db)
                 !! to_string (req !!! "user") = Some account)
    by apply lookup_insert_eq.
  split.
  - unfold get_account. now rewrite (get_own _ _ _ Hl).
  - intros req' Hsame Hc. unfold post_accounts.
    rewrite Hsame, Hu, Hc. simpl. now rewrite (get_own _ _ _ Hl).
Qed.

Lemma post_accounts_then_get_witness :
  get_account (post_accounts ∅ alice).2 (to_string (alice !!! "user"))
    = (json 200
         (of_account
            {| user := VStr "alice"; currency := VStr "$";
               description := VStr "alice's budget"; balance := VNum 0;
               transactions := [] |}),
       (post_accounts ∅ alice).2) /\
  forall req' : body,
    req' !!! "user" = alice !!! "user" ->
    truthy (req' !!! "currency") = true ->
    post_accounts (post_accounts ∅ alice).2 req'
      = (json 409 (error "User already exists"), (post_accounts ∅ alice).2).
Proof.
  apply (post_accounts_then_get ∅ (post_accounts ∅ alice).2 alice).
  vm_compute. reflexivity.
Defined.

(** X2: the account of a 201 answer to a request to create an account
    has the user and the currency of the request, a truthy description
    (the one of the request, or "<user>'s budget"), no transactions, and a
    balance that is a number and not NaN. *)
Theorem post_accounts_stores_number (db : ledger) (req : body) (account : Account) :
  (post_accounts db req).1 = json 201 (of_account account) ->
  user account = req !!! "user" /\
  currency account = req !!! "currency" /\
  truthy (description account) = true /\
  (truthy (req !!! "description") = true ->
   description account = req !!! "description") /\
  (truthy (req !!! "description") = false ->
   description account = VStr (to_string (req !!! "user") +:+ "'s budget")) /\
  transactions account = [] /\
  exists x, balance account = VNum x /\ PrimFloat.is_nan x = false.
Proof.
  intros H.
  destruct (post_accounts_201_fields db req account H)
    as (_ & _ & _ & Hu & Hc & Hd & Hx).
  destruct (post_accounts_201 db req account H) as (Ht & _ & _).
  repeat (split; [assumption|]).
  assert (Hdesc : description account =
                  or (req !!! "description")
                     (VStr (to_string (req !!! "user") +:+ "'s budget"))).
  { revert H. unfold post_accounts.
    destruct (_ || _); [discriminate|].
    destruct (get db _); try discriminate.
    destruct (_ && isNaN _); [discriminate|]. simpl.
    intros H. now inversion H. }
  split; [|split; [|split; assumption]].
  - intros Ht'. rewrite Hdesc. unfold or. now rewrite Ht'.
  - intros Hf. rewrite Hdesc. unfold or. now rewrite Hf.
Qed.

Lemma post_accounts_stores_number_witness :
  let account :=
    {| user := VStr "bob"; currency := VStr "$";
       description := VStr "bob's budget"; balance := VNum 100;
       transactions := [] |} in
  user account = bob !!! "user" /\
  currency account = bob !!! "currency" /\
  truthy (description account) = true /\
  (truthy (bob !!! "description") = true ->
   description account = bob !!! "description") /\
  (truthy (bob !!! "description") = false ->
   description account = VStr (to_string (bob !!! "user") +:+ "'s budget")) /\
  transactions account = [] /\
  exists x, balance account = VNum x /\ PrimFloat.is_nan x = false.
Proof.
  apply (post_accounts_stores_number ∅ bob).
  vm_compute. reflexivity.
Defined.

(** X3: a request to create an account is answered with 400 "Balance
    must be a number" exactly when its user and currency are truthy, the
    user is not taken, and its balance is truthy, not a number, and turned
    into NaN by [parseFloat]; the ledger is then unchanged. *)
Theorem post_accounts_invalid_balance (db : ledger) (req : body) :
  (post_accounts db req = (json 400 (error "Balance must be a number"), db) <->
   truthy (req !!! "user") = true /\
   truthy (req !!! "currency") = true /\
   get db (to_string (req !!! "user")) = Missing /\
   truthy (req !!! "balance") = true /\
   is_number (req !!! "balance") = false /\
   PrimFloat.is_nan (parseFloat (req !!! "balance")) = true) /\
  (is_error (post_accounts db req).1 400 "Balance must be a number" = true ->
   (post_accounts db req).2 = db).
Proof.
  unfold post_accounts.
  destruct (truthy (req !!! "user")), (truthy (req !!! "currency")); simpl;
    try (split; [split; [discriminate | intros (? & ? & _); discriminate]
                |discriminate]).
  destruct (get db _); simpl;
    try (split; [split; [discriminate | intros (_ & _ & ? & _); discriminate]
                |discriminate]).
  destruct (truthy (req !!! "balance")); simpl;
    [|split; [split; [discriminate | intros (_ & _ & _ & ? & _); discriminate]
             |discriminate]].
  destruct (is_number (req !!! "balance")); simpl;
    [split; [split; [discriminate | intros (_ & _ & _ & _ & ? & _); discriminate]
            |discriminate]|].
  unfold isNaN. simpl.
  destruct (PrimFloat.is_nan (parseFloat (req !!! "balance"))); simpl.
  - split; [split; [now intros _|reflexivity]|reflexivity].
  - split; [split; [discriminate | intros (_ & _ & _ & _ & _ & ?); discriminate]
           |discriminate].
Qed.

Lemma post_accounts_invalid_balance_witness :
  post_accounts default_db carol
    = (json 400 (error "Balance must be a number"), default_db).
Proof.
  apply (proj2 (proj1 (post_accounts_invalid_balance default_db carol))).
  repeat apply conj; vm_compute; reflexivity.
Defined.

(** X4: a request that is answered with a 4xx status (400, 404 or 409)
    leaves the ledger as it was: each of these answers is given before the
    handler changes [db]. *)
Theorem errors_leave_ledger_unchanged (db db' : ledger) (q : request) (r : response) :
  handle db q = (r, db') ->
  400 <= status r < 500 ->
  db' = db.
Proof.
  intros H Hs. destruct q as [req|name|name|name req|name id0]; simpl in H.
  - revert H. unfold post_accounts.
    destruct (_ || _); [now inversion 1|].
    destruct (get db _); try now inversion 1.
    destruct (_ && isNaN _); [now inversion 1|].
    inversion 1; subst. simpl in Hs. lia.
  - revert H. unfold get_account. destruct (get db name); now inversion 1.
  - revert H. unfold delete_account.
    destruct (get db name); inversion 1; subst; try reflexivity;
      simpl in Hs; lia.
  - pose proof (post_transactions_answers db name req) as Hans.
    rewrite H in Hans. inversion Hans; subst; try reflexivity.
    simpl in Hs. lia.
  - revert H. unfold delete_transaction.
    destruct (get db name); try now inversion 1.
    destruct (_ =? _); inversion 1; subst; [reflexivity|].
    simpl in Hs. lia.
Qed.

Lemma errors_leave_ledger_unchanged_witness :
  (handle default_db (PostTransactions "test" free_number)).2 = default_db.
Proof.
  apply (errors_leave_ledger_unchanged default_db _
           (PostTransactions "test" free_number)
           (handle default_db (PostTransactions "test" free_number)).1).
  - now destruct (handle default_db (PostTransactions "test" free_number)).
  - vm_compute. split; [discriminate | reflexivity].
Defined.

(** X5: a name that [db] inherits from [Object.prototype], such as
    "toString", is taken for an account although the ledger has none: an
    account of that name cannot be created (409), adding or removing a
    transaction there makes the handler throw, and removing the account is
    answered with 204; the ledger is unchanged each time. *)
Theorem prototype_member_as_user (db : ledger) (name : string) :
  In name object_prototype ->
  db !! name = None ->
  (forall req : body,
     req !!! "user" = VStr name ->
     truthy (req !!! "currency") = true ->
     post_accounts db req = (json 409 (error "User already exists"), db)) /\
  (forall req : body,
     truthy (req !!! "date") = true ->
     truthy (req !!! "object") = true ->
     truthy (req !!! "amount") = true ->
     post_transactions db name req = (TypeError, db)) /\
  (forall id0 : string, delete_transaction db name id0 = (TypeError, db)) /\
  delete_account db name = (sendStatus 204, db) /\
  status (get_account db name).1 = 200.
Proof.
  intros Hin Hnone.
  assert (Hget : get db name = Inherited).
  { unfold get. rewrite Hnone.
    replace (existsb (String.eqb name) object_prototype) with true; [reflexivity|].
    symmetry. apply existsb_exists. exists name. split; [exact Hin|].
    apply String.eqb_refl. }
  assert (Hne : truthy (VStr name) = true).
  { simpl in Hin. repeat (destruct Hin as [<-|Hin]; [reflexivity|]). destruct Hin. }
  repeat split.
  - intros req Hu Hc. unfold post_accounts. rewrite Hu, Hne, Hc. simpl.
    now rewrite Hget.
  - intros req Hd Ho Ha. unfold post_transactions.
    rewrite Hget, Hd, Ho, Ha, amount_check_never_holds. simpl.
    now destruct (generate_id req).
  - intros id0. unfold delete_transaction. now rewrite Hget.
  - unfold delete_account. rewrite Hget. now rewrite (delete_id _ _ Hnone).
  - unfold get_account. now rewrite Hget.
Qed.

Lemma prototype_member_as_user_witness :
  post_accounts default_db {[ "user" := VStr "toString"; "currency" := VStr "$" ]}
    = (json 409 (error "User already exists"), default_db) /\
  post_transactions default_db "toString" gift = (TypeError, default_db).
Proof.
  split.
  - apply (proj1 (prototype_member_as_user default_db "toString"
                    ltac:(vm_compute; tauto) eq_refl)); reflexivity.
  - apply (proj1 (proj2 (prototype_member_as_user default_db "toString"
                           ltac:(vm_compute; tauto) eq_refl))); reflexivity.
Defined.

(** X6: for a user that is neither in the ledger nor a member of
    [Object.prototype], reading or removing the account and adding or
    removing a transaction are answered with 404, whatever the body, and
    leave the ledger unchanged. *)
Theorem unknown_user_not_found (db : ledger) (name : string) :
  db !! name = None ->
  existsb (String.eqb name) object_prototype = false ->
  get_account db name
    = (json 404 (error "Username or password does not exist"), db) /\
  delete_account db name = (json 404 (error "User does not exist"), db) /\
  (forall req : body,
     post_transactions db name req = (json 404 (error "User does not exist"), db)) /\
  (forall id0 : string,
     delete_transaction db name id0 = (json 404 (error "User does not exist"), db)).
Proof.
  intros Hnone Hp.
  assert (Hget : get db name = Missing) by (unfold get; now rewrite Hnone, Hp).
  unfold get_account, delete_account, post_transactions, delete_transaction.
  rewrite Hget. repeat split.
Qed.

Lemma unknown_user_not_found_witness :
  get_account default_db "nobody"
    = (json 404 (error "Username or password does not exist"), default_db) /\
  delete_account default_db "nobody"
    = (json 404 (error "User does not exist"), default_db) /\
  (forall req : body,
     post_transactions default_db "nobody" req
       = (json 404 (error "User does not exist"), default_db)) /\
  (forall id0 : string,
     delete_transaction default_db "nobody" id0
       = (json 404 (error "User does not exist"), default_db)).
Proof.
  apply (unknown_user_not_found default_db "nobody"); reflexivity.
Defined.

(** X7: removing an account that a request has just created gives back
    the ledger as it was before the creation, and the account can then no
    longer be read (404). *)
Theorem post_accounts_then_delete (db db' : ledger) (req : body) (account : Account) :
  post_accounts db req = (json 201 (of_account account), db') ->
  delete_account db' (to_string (req !!! "user")) = (sendStatus 204, db) /\
  get_account db (to_string (req !!! "user"))
    = (json 404 (error "Username or password does not exist"), db).
Proof.
  intros H.
  assert (H1 : (post_accounts db req).1 = json 201 (of_account account)) by now rewrite H.
  destruct (post_accounts_201 db req account H1) as (_ & _ & Hdb').
  destruct (post_accounts_201_fields db req account H1) as (_ & _ & Hget & _).
  rewrite H in Hdb'. simpl in Hdb'. subst db'.
  split.
  - unfold delete_account.
    rewrite (get_own _ _ account (lookup_insert_eq _ _ _)).
    rewrite delete_insert_eq. now rewrite (delete_id _ _ (get_missing_lookup _ _ Hget)).
  - unfold get_account. now rewrite Hget.
Qed.

Lemma post_accounts_then_delete_witness :
  delete_account (post_accounts default_db alice).2 (to_string (alice !!! "user"))
    = (sendStatus 204, default_db) /\
  get_account default_db (to_string (alice !!! "user"))
    = (json 404 (error "Username or password does not exist"), default_db).
Proof.
  apply (post_accounts_then_delete default_db (post_accounts default_db alice).2 alice
           {| user := VStr "alice"; currency := VStr "$";
              description := VStr "alice's budget"; balance := VNum 0;
              transactions := [] |}).
  vm_compute. reflexivity.
Defined.

(** *** Adding and removing transactions *)

Lemma findIndex_middle {A : Type} (f : A -> bool) (l r : list A) (x : A) :
  existsb f l = false -> f x = true ->
  findIndex f (l ++ x :: r) = Z.of_nat (length l).
Proof.
  intros Hl Hx. induction l as [|y l IH]; simpl in *.
  - now rewrite Hx.
  - apply orb_false_iff in Hl as [Hy Hl]. rewrite Hy, (IH Hl).
    destruct (Z.eqb_spec (Z.of_nat (length l)) (-1)); lia.
Qed.

(** Removing the first transaction that has the id. *)
Lemma delete_transaction_at (db : ledger) (name id0 : string)
    (account : Account) (before after : list Transaction) (t : Transaction) :
  db !! name = Some account ->
  transactions account = before ++ t :: after ->
  existsb (has_id id0) before = false ->
  has_id id0 t = true ->
  delete_transaction db name id0 =
    (sendStatus 204,
     <[name := {| user := user account; currency := currency account;
                  description := description account;
                  balance := balance account;
                  transactions := before ++ after |}]> db).
Proof.
  intros Hdb Hl Hb Ht. unfold delete_transaction. rewrite (get_own _ _ _ Hdb).
  change (fun transaction : Transaction => String.eqb (id transaction) id0)
    with (has_id id0).
  rewrite Hl, (findIndex_middle _ _ _ _ Hb Ht).
  destruct (Z.eqb_spec (Z.of_nat (length before)) (-1)) as [Hneg|_]; [lia|].
  unfold splice. now rewrite Hl, splice1_middle.
Qed.

(** X8: removing the transaction that a request has just added, by the
    id of the answer, is answered with 204 and gives the account its
    former transactions back, but not its former balance: the balance
    stays the former balance [+] the amount; nothing else of the ledger
    differs from what it was before the addition. *)
Theorem post_then_delete_transaction (db db1 : ledger) (name : string) (req : body)
    (t : Transaction) :
  post_transactions db name req = (json 201 (of_transaction t), db1) ->
  exists account : Account,
    db !! name = Some account /\
    delete_transaction db1 name (id t) =
      (sendStatus 204,
       <[name := {| user := user account; currency := currency account;
                    description := description account;
                    balance := add (balance account) (amount t);
                    transactions := transactions account |}]> db).
Proof.
  intros H.
  destruct (post_transactions_201 db name req _ _ H eq_refl)
    as (account & id1 & Hdb & Hd & Ho & Ha & Hid & Hnew).
  rewrite (post_transactions_created db name req account id1 Hdb Hd Ho Ha Hid Hnew) in H.
  inversion H; subst; clear H.
  exists account. split; [exact Hdb|].
  rewrite (delete_transaction_at _ name id1
             (add_balance (push account (new_transaction req id1))
                (amount (new_transaction req id1)))
             (transactions account) [] (new_transaction req id1)
             (lookup_insert_eq _ _ _) eq_refl Hnew)
    by (simpl; apply String.eqb_refl).
  simpl. now rewrite insert_insert_eq, app_nil_r.
Qed.

Lemma post_then_delete_transaction_witness :
  exists account : Account,
    default_db !! "test" = Some account /\
    delete_transaction (post_transactions default_db "test" gift).2 "test"
      "1fd9ab84cdf17f9e1b7527b0a7865c30" =
      (sendStatus 204,
       <["test" := {| user := user account; currency := currency account;
                      description := description account;
                      balance := add (balance account) (VNum 20);
                      transactions := transactions account |}]> default_db).
Proof.
  apply (post_then_delete_transaction default_db
           (post_transactions default_db "test" gift).2 "test" gift
           {| id := "1fd9ab84cdf17f9e1b7527b0a7865c30"; date := VStr "2021-01-01";
              object := VStr "Gift"; amount := VNum 20 |}).
  vm_compute. reflexivity.
Defined.

(** X9: an amount that is the number 0 counts as a missing parameter:
    the request is answered with 400 "Missing parameters" and nothing is
    stored; a non-empty string that [parseFloat] turns into 0, such as
    "0", passes the same check and is stored as a transaction of amount
    0. *)
Theorem zero_amount (db : ledger) (name : string) (req : body) :
  (forall x : float,
     get db name <> Missing ->
     req !!! "amount" = VNum x ->
     PrimFloat.is_zero x = true ->
     post_transactions db name req = (json 400 (error "Missing parameters"), db)) /\
  (forall (account : Account) (s id1 : string),
     db !! name = Some account ->
     truthy (req !!! "date") = true ->
     truthy (req !!! "object") = true ->
     req !!! "amount" = VStr s ->
     truthy (VStr s) = true ->
     PrimFloat.is_zero (parseFloat (VStr s)) = true ->
     generate_id req = Some id1 ->
     existsb (has_id id1) (transactions account) = false ->
     exists (t : Transaction) (account' : Account),
       amount t = VNum (parseFloat (VStr s)) /\
       post_transactions db name req = (json 201 (of_transaction t), <[name := account']> db) /\
       transactions account' = transactions account ++ [t]).
Proof.
  split.
  - intros x Hget Ha Hz. unfold post_transactions.
    rewrite Ha. simpl. rewrite Hz. simpl. rewrite !orb_true_r.
    now destruct (get db name).
  - intros account s id1 Hdb Hd Ho Hs Ht _ Hid Hnew.
    assert (Ha : truthy (req !!! "amount") = true) by now rewrite Hs.
    rewrite (post_transactions_created db name req account id1 Hdb Hd Ho Ha Hid Hnew).
    eexists _, _. split; [|split; reflexivity].
    simpl. unfold converted. now rewrite Hs, Ht.
Qed.

Lemma zero_amount_witness :
  post_transactions default_db "test" free_number
    = (json 400 (error "Missing parameters"), default_db) /\
  exists (t : Transaction) (account' : Account),
    amount t = VNum (parseFloat (VStr "0")) /\
    post_transactions default_db "test" free_string
      = (json 201 (of_transaction t), <["test" := account']> default_db) /\
    transactions account' = transactions test_account ++ [t].
Proof.
  split.
  - apply (proj1 (zero_amount default_db "test" free_number) 0%float);
      [vm_compute; discriminate | reflexivity | reflexivity].
  - apply (proj2 (zero_amount default_db "test" free_string) test_account "0"
             "d9c3bf21b9f52f5894ed748bbe800924");
      vm_compute; reflexivity.
Defined.

(** X14: on an account whose ids are unique, a transaction that has
    been removed cannot be removed again: the second request is answered
    with 404 "Transaction does not exist" and changes nothing. *)
Theorem delete_transaction_twice (db db1 : ledger) (name id0 : string)
    (account : Account) :
  db !! name = Some account ->
  unique_ids account ->
  delete_transaction db name id0 = (sendStatus 204, db1) ->
  delete_transaction db1 name id0 =
    (json 404 (error "Transaction does not exist"), db1).
Proof.
  intros Hdb Hu H.
  destruct (existsb (has_id id0) (transactions account)) eqn:He.
  - destruct (findIndex_first _ _ He) as (before & t & after & Hl & Ht & Hb & _).
    rewrite (delete_transaction_at db name id0 account before after t Hdb Hl Hb Ht) in H.
    inversion H; subst db1; clear H.
    unfold delete_transaction.
    rewrite (get_own _ _ _ (lookup_insert_eq _ _ _)). simpl.
    assert (Hgone : existsb (has_id id0) (before ++ after) = false).
    { unfold unique_ids in Hu. rewrite Hl, List.map_app in Hu. simpl in Hu.
      apply NoDup_app in Hu as (_ & Hsep & Ha).
      apply NoDup_cons in Ha as [Hna _].
      apply has_id_absent. rewrite List.map_app.
      unfold has_id in Ht. apply String.eqb_eq in Ht. rewrite <- Ht.
      intros Hin. apply elem_of_app in Hin as [Hin|Hin].
      - apply (Hsep _ Hin). now left.
      - now apply Hna. }
    unfold has_id in Hgone. now rewrite (findIndex_none _ _ Hgone).
  - revert H. unfold delete_transaction. rewrite (get_own _ _ _ Hdb).
    unfold has_id in He. rewrite (findIndex_none _ _ He). discriminate.
Qed.

Lemma delete_transaction_twice_witness :
  delete_transaction (delete_transaction default_db "test" "2").2 "test" "2" =
    (json 404 (error "Transaction does not exist"),
     (delete_transaction default_db "test" "2").2).
Proof.
  apply (delete_transaction_twice default_db _ "test" "2" test_account).
  - reflexivity.
  - unfold unique_ids. simpl. compute_done.
  - vm_compute. reflexivity.
Defined.

(** *** What a request leaves alone *)

(** A request changes [db] at most at its target. *)
Lemma other_accounts_untouched_aux (db : ledger) (q : request) (other : string) :
  target q <> other ->
  (handle db q).2 !! other = db !! other.
Proof.
  intros Hne. destruct q as [req|name|name|name req|name id0]; simpl in *.
  - unfold post_accounts.
    destruct (_ || _); [reflexivity|].
    destruct (get db _); try reflexivity.
    destruct (_ && isNaN _); [reflexivity|]. simpl.
    now rewrite lookup_insert_ne.
  - unfold get_account. now destruct (get db name).
  - unfold delete_account.
    destruct (get db name); simpl; try reflexivity; now rewrite lookup_delete_ne.
  - destruct (post_transactions_answers db name req); try reflexivity.
    simpl. now rewrite lookup_insert_ne.
  - unfold delete_transaction.
    destruct (get db name); try reflexivity.
    destruct (_ =? _); [reflexivity|]. simpl. now rewrite lookup_insert_ne.
Qed.

(** X13: a request leaves every account but the one it is about as it
    was: the account of any other user is neither created, changed nor
    removed, also over a sequence of requests none of which is about that
    user. *)
Theorem other_accounts_untouched (db : ledger) (qs : list request) (other : string) :
  Forall (fun q => target q <> other) qs ->
  run db qs !! other = db !! other.
Proof.
  unfold run. revert db.
  induction qs as [|q qs IH]; intros db Hqs; simpl; [reflexivity|].
  apply Forall_cons in Hqs as [Hq Hqs].
  rewrite (IH _ Hqs). now apply other_accounts_untouched_aux.
Qed.

Lemma other_accounts_untouched_witness :
  run default_db
    [ PostAccounts alice; PostTransactions "alice" gift; DeleteAccount "alice" ]
    !! "test"
  = default_db !! "test".
Proof.
  apply (other_accounts_untouched default_db
           [ PostAccounts alice; PostTransactions "alice" gift; DeleteAccount "alice" ]
           "test").
  repeat constructor; vm_compute; discriminate.
Defined.

(** X15: as long as an account exists, its user, currency and
    description never change; its balance changes only by a request to add
    a transaction to it, and its transactions only by a request to add or
    to remove one of its transactions. *)
Theorem account_changes_only_by_its_transactions (db : ledger) (q : request)
    (name : string) (account account' : Account) :
  db !! name = Some account ->
  (handle db q).2 !! name = Some account' ->
  user account' = user account /\
  currency account' = currency account /\
  description account' = description account /\
  ((forall req, q <> PostTransactions name req) ->
   balance account' = balance account) /\
  ((forall req, q <> PostTransactions name req) ->
   (forall id0, q <> DeleteTransaction name id0) ->
   transactions account' = transactions account).
Proof.
  intros Hdb H.
  assert (Hsame : (handle db q).2 = db -> account' = account).
  { intros E. rewrite E, Hdb in H. now inversion H. }
  assert (Hrefl : account' = account ->
    user account' = user account /\ currency account' = currency account /\
    description account' = description account /\
    ((forall req, q <> PostTransactions name req) ->
     balance account' = balance account) /\
    ((forall req, q <> PostTransactions name req) ->
     (forall id0, q <> DeleteTransaction name id0) ->
     transactions account' = transactions account)).
  { intros ->. now repeat split. }
  destruct q as [req|n|n|n req|n id0]; simpl in *.
  - apply Hrefl. revert H Hsame. unfold post_accounts.
    destruct (_ || _); [now auto|].
    destruct (get db _) eqn:Hget; try now auto.
    destruct (_ && isNaN _); [now auto|]. simpl.
    intros H _. apply get_missing_lookup in Hget.
    destruct (decide (to_string (req !!! "user") = name)) as [E|Hne].
    + rewrite E in Hget. congruence.
    + rewrite lookup_insert_ne in H by assumption. congruence.
  - apply Hrefl, Hsame. unfold get_account. now destruct (get db n).
  - apply Hrefl. revert H Hsame. unfold delete_account.
    destruct (get db n); simpl; try now auto.
    + intros H _. destruct (decide (n = name)) as [->|Hne].
      * rewrite lookup_delete_eq in H. discriminate.
      * rewrite lookup_delete_ne in H by assumption. congruence.
    + intros H _. destruct (decide (n = name)) as [->|Hne].
      * rewrite lookup_delete_eq in H. discriminate.
      * rewrite lookup_delete_ne in H by assumption. congruence.
  - destruct (post_transactions_answers db n req) as [| | | |acc id1 Hacc];
      try (apply Hrefl, Hsame; reflexivity).
    simpl in *. destruct (decide (n = name)) as [->|Hne].
    + rewrite lookup_insert_eq in H. inversion H; subst; clear H.
      assert (acc = account) by congruence. subst acc. simpl.
      repeat split.
      * intros Hq. now contradiction (Hq req).
      * intros Hq. now contradiction (Hq req).
    + rewrite lookup_insert_ne in H by assumption. apply Hrefl. congruence.
  - revert H Hsame. unfold delete_transaction.
    destruct (get db n) as [acc| |] eqn:Hget; try (intros; now apply Hrefl, Hsame).
    destruct (_ =? _); [intros; now apply Hrefl, Hsame|]. simpl.
    intros H _. apply get_own_inv in Hget.
    destruct (decide (n = name)) as [->|Hne].
    + rewrite lookup_insert_eq in H. inversion H; subst; clear H.
      assert (acc = account) by congruence. subst acc. simpl.
      repeat split. intros _ Hq. now contradiction (Hq id0).
    + rewrite lookup_insert_ne in H by assumption. apply Hrefl. congruence.
Qed.

Lemma account_changes_only_by_its_transactions_witness :
  user (splice test_account 1) = user test_account /\
  currency (splice test_account 1) = currency test_account /\
  description (splice test_account 1) = description test_account /\
  ((forall req, DeleteTransaction "test" "2" <> PostTransactions "test" req) ->
   balance (splice test_account 1) = balance test_account) /\
  ((forall req, DeleteTransaction "test" "2" <> PostTransactions "test" req) ->
   (forall id0, DeleteTransaction "test" "2" <> DeleteTransaction "test" id0) ->
   transactions (splice test_account 1) = transactions test_account).
Proof.
  apply (account_changes_only_by_its_transactions default_db
           (DeleteTransaction "test" "2") "test");
    vm_compute; reflexivity.
Defined.

(** *** Sequences of requests *)

(** A property of every account that each request keeps is kept by every
    sequence of requests. *)
Lemma run_keeps (P : Account -> Prop) :
  (forall db q, all_accounts P db -> all_accounts P (handle db q).2) ->
  forall qs db, all_accounts P db -> all_accounts P (run db qs).
Proof.
  intros Hstep qs. unfold run.
  induction qs as [|q qs IH]; intros db Hdb; simpl; [exact Hdb|].
  apply IH, Hstep, Hdb.
Qed.

Lemma handle_keeps_unique_ids (db : ledger) (q : request) :
  all_accounts unique_ids db -> all_accounts unique_ids (handle db q).2.
Proof.
  intros Hdb. destruct (unique_ids_preserved db Hdb) as (Hpa & Hda & Hpt & Hdt).
  destruct q; simpl; auto.
  unfold get_account. now destruct (get db name).
Qed.

(** X10: whatever requests the server handles, in whatever order, the
    ids of the transactions of each account stay unique if they were so at
    the start, as they are in the default data. *)
Theorem run_keeps_unique_ids (db : ledger) (qs : list request) :
  all_accounts unique_ids db -> all_accounts unique_ids (run db qs).
Proof. apply run_keeps. exact handle_keeps_unique_ids. Qed.

Lemma run_keeps_unique_ids_witness :
  all_accounts unique_ids default_db /\
  unique_ids
    {| user := VStr "test"; currency := VStr "$";
       description := VStr "Test account"; balance := VNum 95;
       transactions :=
         [ {| id := "1"; date := VStr "2020-10-01";
              object := VStr "Pocket money"; amount := VNum 50 |};
           {| id := "3"; date := VStr "2020-10-04";
              object := VStr "Sandwich"; amount := VNum (-5) |};
           {| id := "1fd9ab84cdf17f9e1b7527b0a7865c30"; date := VStr "2021-01-01";
              object := VStr "Gift"; amount := VNum 20 |} ] |}.
Proof.
  split; [exact default_db_unique_ids|].
  apply (run_keeps_unique_ids default_db
           [ PostTransactions "test" gift; DeleteTransaction "test" "2";
             PostTransactions "test" gift; PostAccounts alice ]
           default_db_unique_ids "test").
  vm_compute. reflexivity.
Defined.

Lemma handle_keeps_numeric (db : ledger) (q : request) :
  all_accounts numeric db -> all_accounts numeric (handle db q).2.
Proof.
  intros Hdb. destruct q as [req|name|name|name req|name id0]; simpl.
  - apply post_accounts_keeps; [exact Hdb|].
    intros account H.
    destruct (post_accounts_201_fields db req account H)
      as (_ & _ & _ & _ & _ & _ & x & Hx & _).
    destruct (post_accounts_201 db req account H) as (Ht & _ & _).
    split; [now rewrite Hx | rewrite Ht; constructor].
  - unfold get_account. now destruct (get db name).
  - now apply delete_account_keeps.
  - destruct (post_transactions_answers db name req)
      as [| | | |account id1 Hacc _ _ Ha _ _]; try exact Hdb.
    simpl. apply all_accounts_insert; [exact Hdb|].
    destruct (Hdb _ _ Hacc) as [Hb Hf].
    destruct (converted_number _ Ha) as [x Hx].
    split; simpl.
    + rewrite Hx. destruct (balance account); try discriminate. reflexivity.
    + apply Forall_app. split; [exact Hf|].
      constructor; [simpl; now rewrite Hx | constructor].
  - apply delete_transaction_keeps; [exact Hdb|].
    intros account before t after _ [Hb Hf] Hl _.
    split; simpl; [exact Hb|].
    rewrite Hl, splice1_middle. rewrite Hl in Hf.
    apply Forall_app in Hf as [Hf1 Hf2]. apply Forall_cons in Hf2 as [_ Hf2].
    apply Forall_app. now split.
Qed.

(** X11: whatever requests the server handles, the balance of each
    account and the amount of each of its transactions stay numbers if
    they were so at the start, as they are in the default data: no request
    can turn a balance or an amount into a string or another value. *)
Theorem run_keeps_numeric (db : ledger) (qs : list request) :
  all_accounts numeric db -> all_accounts numeric (run db qs).
Proof. apply run_keeps. exact handle_keeps_numeric. Qed.

Lemma default_db_numeric : all_accounts numeric default_db.
Proof.
  apply all_accounts_insert; [apply all_accounts_empty|].
  split; [reflexivity|]. simpl. repeat constructor.
Qed.

Lemma run_keeps_numeric_witness :
  all_accounts numeric default_db /\
  numeric
    {| user := VStr "test"; currency := VStr "$";
       description := VStr "Test account"; balance := VNum nan;
       transactions :=
         [ {| id := "1"; date := VStr "2020-10-01";
              object := VStr "Pocket money"; amount := VNum 50 |};
           {| id := "2"; date := VStr "2020-10-03";
              object := VStr "Book"; amount := VNum (-10) |};
           {| id := "3"; date := VStr "2020-10-04";
              object := VStr "Sandwich"; amount := VNum (-5) |};
           {| id := "00add49741f9aa935628146131311bb5";
              date := VStr "2020-10-05"; object := VStr "Coffee";
              amount := VNum nan |} ] |}.
Proof.
  split; [exact default_db_numeric|].
  apply (run_keeps_numeric default_db [ PostTransactions "test" coffee ]
           default_db_numeric "test").
  vm_compute. reflexivity.
Defined.

(** NaN plus any number is NaN. *)
Lemma nan_add (x : float) : PrimFloat.add nan x = nan.
Proof.
  apply Prim2SF_inj. rewrite add_spec.
  replace (Prim2SF nan) with S754_nan by (vm_compute; reflexivity).
  reflexivity.
Qed.

Lemma handle_keeps_nan_balance (db : ledger) (q : request) (name : string)
    (account : Account) :
  db !! name = Some account ->
  balance account = VNum nan ->
  q <> DeleteAccount name ->
  exists account',
    (handle db q).2 !! name = Some account' /\ balance account' = VNum nan.
Proof.
  intros Hdb Hnan Hq.
  destruct (decide (target q = name)) as [Ht|Hne];
    [|exists account; now rewrite (other_accounts_untouched_aux db q name Hne)].
  destruct q as [req|n|n|n req|n id0]; simpl in Ht; subst; simpl.
  - exists account. split; [|exact Hnan].
    unfold post_accounts. destruct (_ || _); [exact Hdb|].
    now rewrite (get_own _ _ _ Hdb).
  - exists account. split; [|exact Hnan].
    unfold get_account. now destruct (get db name).
  - now contradiction Hq.
  - destruct (post_transactions_answers db name req)
      as [| | | |acc id1 Hacc _ _ Ha _ _]; try (exists account; now split).
    assert (acc = account) by congruence. subst acc.
    eexists. split; [apply lookup_insert_eq|]. simpl.
    destruct (converted_number _ Ha) as [x Hx].
    rewrite Hx, Hnan. unfold add. simpl. now rewrite nan_add.
  - unfold delete_transaction. rewrite (get_own _ _ _ Hdb).
    destruct (_ =? _); [exists account; now split|].
    eexists. split; [apply lookup_insert_eq|]. exact Hnan.
Qed.

(** X12: once the balance of an account is NaN, as after a transaction
    whose amount was not numeric, it stays NaN whatever requests follow,
    as long as the account is not removed: no further transaction, added
    or removed, brings a number back. *)
Theorem nan_balance_is_permanent (db : ledger) (qs : list request) (name : string)
    (account : Account) :
  db !! name = Some account ->
  balance account = VNum nan ->
  Forall (fun q => q <> DeleteAccount name) qs ->
  exists account',
    run db qs !! name = Some account' /\ balance account' = VNum nan.
Proof.
  unfold run. revert db account.
  induction qs as [|q qs IH]; intros db account Hdb Hnan Hqs; simpl.
  - now exists account.
  - apply Forall_cons in Hqs as [Hq Hqs].
    destruct (handle_keeps_nan_balance db q name account Hdb Hnan Hq)
      as (account1 & Hdb1 & Hnan1).
    exact (IH _ account1 Hdb1 Hnan1 Hqs).
Qed.

Lemma nan_balance_is_permanent_witness :
  exists account',
    run (post_transactions default_db "test" coffee).2
      [ PostTransactions "test" gift; DeleteTransaction "test" "1";
        DeleteTransaction "test" "00add49741f9aa935628146131311bb5" ]
      !! "test" = Some account' /\
    balance account' = VNum nan.
Proof.
  apply (nan_balance_is_permanent (post_transactions default_db "test" coffee).2 _ "test"
           (add_balance (push test_account (new_transaction coffee "00add49741f9aa935628146131311bb5"))
              (amount (new_transaction coffee "00add49741f9aa935628146131311bb5")))).
  - vm_compute. reflexivity.
  - vm_compute. reflexivity.
  - repeat constructor; discriminate.
Defined.
